(** * d8r: schedule evaluation and action decision

    A shallow embedding of the downscaler's decision code
    ([getRidOfDate], [ConvertTimeNowToLocal], [ConvertAnnotationTime],
    [getDeploymentActionNeeded], [isDeploymentActionNeeded], the body of
    [checkDeployments] and the cronjob counterparts), together with the
    parts of Go's [time], [fmt], [strconv] and [strings] packages that the
    code calls.

    Conventions:
    - Go integers are [Z]; [int32] conversions are written out with [int32].
    - Go strings are [string]; annotation maps are [gmap string string].
    - a Go [(value, error)] result is a [result]; the logger is modelled by
      the list of lines it was handed, in order ([Logged]).
    - the wall clock, the time zone database and the API server are not
      part of the program: they are the fields of a [World]. *)

From Stdlib Require Import ZArith Ascii String List Lia Bool.
From stdpp Require Import base option gmap strings.

Local Open Scope Z_scope.
#[local] Set Warnings "-clear-no-such-hyp".

(* ===================================================================== *)
(** * Errors, results and the logger *)
(* ===================================================================== *)

Inductive NumErrorKind := ErrSyntax | ErrRange.

(** The error values the program can meet. Only their presence is
    observable (they are handed to the logger). *)
Inductive error :=
| LocationError (name : string)                  (* time.LoadLocation *)
| ParseError (layout value : string)             (* time.Parse *)
| NumError (func num : string) (kind : NumErrorKind). (* strconv.ParseInt *)

Inductive result (A : Type) :=
| Ok (a : A)
| Err (e : error).
Arguments Ok {A} a.
Arguments Err {A} e.

(* ===================================================================== *)
(** * Bytes and digits *)
(* ===================================================================== *)

Module Byte.

Definition code (c : ascii) : Z := Z.of_N (N_of_ascii c).

(** [byte('0' + d)] *)
Definition of_digit (d : Z) : ascii := ascii_of_N (Z.to_N (48 + d)).

Definition is_digit (c : ascii) : bool := (48 <=? code c) && (code c <=? 57).

Definition is_upper (c : ascii) : bool := (65 <=? code c) && (code c <=? 90).

Definition digit_val (c : ascii) : Z := code c - 48.

Definition eqb (a b : ascii) : bool := Ascii.eqb a b.

End Byte.

(* ===================================================================== *)
(** * package strings *)
(* ===================================================================== *)

Module GoStrings.

(** [s[n:]], for [n] within the string *)
Fixpoint drop (n : nat) (s : string) : string :=
  match n, s with
  | O, _ => s
  | S n', String _ s' => drop n' s'
  | S _, EmptyString => EmptyString
  end.

(** [s[:n]], for [n] within the string *)
Fixpoint take (n : nat) (s : string) : string :=
  match n, s with
  | O, _ => EmptyString
  | S n', String c s' => String c (take n' s')
  | S _, EmptyString => EmptyString
  end.

Fixpoint HasPrefix (s prefix : string) : bool :=
  match prefix, s with
  | EmptyString, _ => true
  | String p prefix', String c s' => Byte.eqb c p && HasPrefix s' prefix'
  | String _ _, EmptyString => false
  end.

(** [strings.Contains(s, substr)]: [substr] occurs somewhere in [s]. *)
Fixpoint Contains (s substr : string) : bool :=
  HasPrefix s substr ||
  match s with
  | EmptyString => false
  | String _ s' => Contains s' substr
  end.

End GoStrings.

(* ===================================================================== *)
(** * package strconv and the integer verbs of package fmt *)
(* ===================================================================== *)

Module GoStrconv.

(** The digit loop of [formatBits]: digits are produced from the least
    significant one, in front of [acc]. Go's buffer holds 65 bytes; a
    64-bit value has at most 20 decimal digits, which is the fuel. *)
Fixpoint formatBits (fuel : nat) (u : Z) (acc : string) : string :=
  match fuel with
  | O => acc
  | S fuel' =>
      if u <? 10 then String (Byte.of_digit u) acc
      else formatBits fuel' (u / 10) (String (Byte.of_digit (u mod 10)) acc)
  end.

Definition FormatUint (u : Z) : string := formatBits 20 u EmptyString.

(** The loop of [ParseUint(s, 10, 32)]: a byte that is not a decimal
    digit is a syntax error, a value above [1<<32 - 1] a range error,
    whichever comes first. *)
Definition maxVal32 : Z := 2 ^ 32 - 1.

Fixpoint parseLoop (s : string) (n : Z) : NumErrorKind + Z :=
  match s with
  | EmptyString => inr n
  | String c s' =>
      if Byte.is_digit c then
        let n1 := n * 10 + Byte.digit_val c in
        if maxVal32 <? n1 then inl ErrRange else parseLoop s' n1
      else inl ErrSyntax
  end.

Definition ParseUint32 (s : string) : NumErrorKind + Z :=
  match s with
  | EmptyString => inl ErrSyntax
  | _ => parseLoop s 0
  end.

(** [strconv.ParseInt(s, 10, 32)] *)
Definition ParseInt32 (s0 : string) : result Z :=
  match s0 with
  | EmptyString => Err (NumError "ParseInt" s0 ErrSyntax)
  | String c rest =>
      let neg := Byte.eqb c "-" in
      let s := if Byte.eqb c "+" || neg then rest else s0 in
      match ParseUint32 s with
      | inl ErrSyntax => Err (NumError "ParseInt" s0 ErrSyntax)
      | inl ErrRange => Err (NumError "ParseInt" s0 ErrRange)
      | inr un =>
          let cutoff := 2 ^ 31 in
          if negb neg && (cutoff <=? un) then Err (NumError "ParseInt" s0 ErrRange)
          else if neg && (cutoff <? un) then Err (NumError "ParseInt" s0 ErrRange)
          else Ok (if neg then - un else un)
      end
  end.

End GoStrconv.

(** [int32(x)]: conversion with wrap-around. *)
Definition int32 (x : Z) : Z := (x + 2 ^ 31) mod 2 ^ 32 - 2 ^ 31.

Module GoFmt.

Definition zeros (n : nat) : string := string_of_list_ascii (repeat "0"%char n).

(** digits of [|v|], left-padded with zeros to at least [prec] digits *)
Definition digits (prec : nat) (v : Z) : string :=
  let d := GoStrconv.FormatUint (Z.abs v) in
  zeros (prec - String.length d) +:+ d.

(** [%d] *)
Definition d (v : Z) : string :=
  (if v <? 0 then "-" else "") +:+ digits 1 v.

(** [%02d]: width 2, zero padded; the sign takes one column of the width *)
Definition d02 (v : Z) : string :=
  if v <? 0 then "-" +:+ digits 1 v else digits 2 v.

(** [%+.02d]: always signed, at least two digits *)
Definition d_plus_prec2 (v : Z) : string :=
  (if v <? 0 then "-" else "+") +:+ digits 2 v.

(** [%.02d]: at least two digits *)
Definition d_prec2 (v : Z) : string :=
  (if v <? 0 then "-" else "") +:+ digits 2 v.

End GoFmt.


(* ===================================================================== *)
(** * package time *)
(* ===================================================================== *)

(** The part of Go's [time] package the program relies on. A [Time] is an
    instant (seconds since the Unix epoch) paired with the [Location] it
    is displayed in. The program compares only values whose seconds and
    nanoseconds are zero (results of [getRidOfDate]) and reads only hour,
    minute and weekday of the others, so fractions of a second are not
    represented. *)
Module GoTime.

(** A location answers, for an instant, the zone in use there: its
    abbreviation and its offset east of UTC in seconds. *)
Record Location := { lookup : Z -> string * Z }.

Definition UTC : Location := {| lookup := fun _ => ("UTC", 0) |}.

Definition FixedZone (name : string) (offset : Z) : Location :=
  {| lookup := fun _ => (name, offset) |}.

Record Time := { unixSec : Z; loc : Location }.

Definition In (t : Time) (l : Location) : Time :=
  {| unixSec := unixSec t; loc := l |}.

(** [t.Zone()] *)
Definition Zone (t : Time) : string * Z := lookup (loc t) (unixSec t).

(** seconds on the wall clock of [t]'s location, counted from the epoch *)
Definition abs (t : Time) : Z := unixSec t + snd (Zone t).

Definition Hour (t : Time) : Z := (abs t mod 86400) / 3600.
Definition Minute (t : Time) : Z := (abs t mod 3600) / 60.

(** [t.Weekday()], Sunday = 0; 1 January 1970 was a Thursday. *)
Definition Weekday (t : Time) : Z := (abs t / 86400 + 4) mod 7.

Definition longDayNames : list string :=
  ["Sunday"; "Monday"; "Tuesday"; "Wednesday"; "Thursday"; "Friday"; "Saturday"].

(** [Weekday.String()] *)
Definition WeekdayString (d : Z) : string :=
  nth (Z.to_nat d) longDayNames "%!Weekday".

Definition Before (t u : Time) : bool := unixSec t <? unixSec u.
Definition After (t u : Time) : bool := unixSec u <? unixSec t.

(** ** [time.Parse] for the one layout the program uses *)

Definition layout : string := "2006-Jan-02 15:04 -0700 MST".

(** Both callers build the value from the constant date [0000-Jan-01];
    the date fields of the layout are modelled for that date only. *)
Definition refDate : string := "0000-Jan-01".

(** 0000-01-01 00:00:00 UTC in Unix seconds *)
Definition refEpoch : Z := -62167219200.

Fixpoint cutspace (s : string) : string :=
  match s with
  | String c s' => if Byte.eqb c " " then cutspace s' else s
  | EmptyString => s
  end.

(** [skip(value, " ")]: a space of the layout matches the end of the
    value or a run of spaces. *)
Definition skipSpace (value : string) : option string :=
  match value with
  | EmptyString => Some value
  | String c _ => if Byte.eqb c " " then Some (cutspace value) else None
  end.

(** [skip(value, b)] for a byte other than the space *)
Definition skipByte (b : ascii) (value : string) : option string :=
  match value with
  | String c value' => if Byte.eqb c b then Some value' else None
  | EmptyString => None
  end.

(** [getnum(s, fixed)]: one or two digits, exactly two when [fixed]. *)
Definition getnum (s : string) (fixed : bool) : option (Z * string) :=
  match s with
  | String c0 s1 =>
      if Byte.is_digit c0 then
        match s1 with
        | String c1 s2 =>
            if Byte.is_digit c1
            then Some (Byte.digit_val c0 * 10 + Byte.digit_val c1, s2)
            else if fixed then None else Some (Byte.digit_val c0, s1)
        | EmptyString => if fixed then None else Some (Byte.digit_val c0, s1)
        end
      else None
  | EmptyString => None
  end.

(** [leadingInt]: the leading run of digits and what follows it *)
Fixpoint leadingInt (s : string) (x : Z) : Z * string :=
  match s with
  | String c s' =>
      if Byte.is_digit c then leadingInt s' (x * 10 + Byte.digit_val c) else (x, s)
  | EmptyString => (x, s)
  end.

(** [parseSignedOffset]: length of a leading [+h] or [-h] with
    [h <= 23], 0 when there is none. *)
Definition parseSignedOffset (value : string) : nat :=
  match value with
  | String sign rest =>
      if Byte.eqb sign "-" || Byte.eqb sign "+" then
        let '(x, rem) := leadingInt rest 0 in
        if (String.length rem =? String.length rest)%nat then 0%nat
        else if 23 <? x then 0%nat
        else (String.length value - String.length rem)%nat
      else 0%nat
  | EmptyString => 0%nat
  end.

Definition parseGMT (value : string) : nat :=
  match GoStrings.drop 3 value with
  | EmptyString => 3%nat
  | rest => (3 + parseSignedOffset rest)%nat
  end.

(** number of leading upper-case letters, counted up to 6 *)
Fixpoint countUpper (fuel : nat) (s : string) : nat :=
  match fuel, s with
  | S fuel', String c s' => if Byte.is_upper c then S (countUpper fuel' s') else O
  | _, _ => O
  end.

(** [parseTimeZone]: length of the zone abbreviation at the start of
    [value], if there is one. *)
Definition parseTimeZone (value : string) : option nat :=
  if (String.length value <? 3)%nat then None
  else if String.eqb (GoStrings.take 4 value) "ChST"
       || String.eqb (GoStrings.take 4 value) "MeST" then Some 4%nat
  else if String.eqb (GoStrings.take 3 value) "GMT" then Some (parseGMT value)
  else if GoStrings.HasPrefix value "+" || GoStrings.HasPrefix value "-" then
    match parseSignedOffset value with
    | O => None
    | n => Some n
    end
  else
    match countUpper 6 value with
    | 3%nat => Some 3%nat
    | 4%nat =>
        if String.eqb (GoStrings.take 1 (GoStrings.drop 3 value)) "T"
           || String.eqb (GoStrings.take 4 value) "WITA"
        then Some 4%nat else None
    | 5%nat =>
        if String.eqb (GoStrings.take 1 (GoStrings.drop 4 value)) "T"
        then Some 5%nat else None
    | _ => None
    end.

(** The [-0700] field: sign, two digits of hours, two of minutes. The
    result is the offset in seconds. *)
Definition parseNumTZ (value : string) : option (Z * string) :=
  if (String.length value <? 5)%nat then None
  else
    match getnum (GoStrings.take 2 (GoStrings.drop 1 value)) true,
          getnum (GoStrings.take 2 (GoStrings.drop 3 value)) true with
    | Some (hr, _), Some (mm, _) =>
        if (24 <? hr) || (60 <? mm) then None
        else
          let zoneOffset := (hr * 60 + mm) * 60 in
          if GoStrings.HasPrefix value "+" then Some (zoneOffset, GoStrings.drop 5 value)
          else if GoStrings.HasPrefix value "-" then Some (- zoneOffset, GoStrings.drop 5 value)
          else None
    | _, _ => None
    end.

(** The [MST] field and the end of the value: [Some None] for the
    literal [UTC], [Some (Some name)] for another abbreviation. *)
Definition parseTZ (value : string) : option (option string * string) :=
  if GoStrings.HasPrefix value "UTC" then Some (None, GoStrings.drop 3 value)
  else
    match parseTimeZone value with
    | Some n => Some (Some (GoStrings.take n value), GoStrings.drop n value)
    | None => None
    end.

(** The fields after the date: [ 15:04 -0700 MST]. The result is hour,
    minute, offset and zone. *)
Definition parseClock (value : string) : option (Z * Z * Z * option string) :=
  value ← skipSpace value;
  '(hour, value) ← getnum value false;
  if 24 <=? hour then None else
  value ← skipByte ":" value;
  '(min, value) ← getnum value true;
  if 60 <=? min then None else
  value ← skipSpace value;
  '(zoneOffset, value) ← parseNumTZ value;
  value ← skipSpace value;
  '(z, value) ← parseTZ value;
  match value with
  | EmptyString => Some (hour, min, zoneOffset, z)
  | _ => None
  end.

(** [Date(0, January, 1, hour, min, 0, 0, UTC)] *)
Definition refTime (hour min : Z) : Time :=
  {| unixSec := refEpoch + hour * 3600 + min * 60; loc := UTC |}.

(** [time.Parse(layout, value)] *)
Definition Parse (value : string) : result Time :=
  if GoStrings.HasPrefix value refDate then
    match parseClock (GoStrings.drop (String.length refDate) value) with
    | Some (hour, min, zoneOffset, z) =>
        match z with
        | None => Ok (refTime hour min)
        | Some zoneName =>
            (* UTC is kept only when it has this offset and this name *)
            Ok {| unixSec := unixSec (refTime hour min) - zoneOffset;
                  loc := if (zoneOffset =? 0) && String.eqb zoneName "UTC" then UTC
                         else FixedZone zoneName zoneOffset |}
        end
    | None => Err (ParseError layout value)
    end
  else Err (ParseError layout value).

End GoTime.


(* ===================================================================== *)
(** * The program *)
(* ===================================================================== *)

(** ** Actions

    [type Action int] with two [iota] blocks: the cronjob names share the
    numbers of the deployment names. *)
Definition Action := Z.

Definition Upscale : Action := 0.
Definition Downscale : Action := 1.
Definition NoAction : Action := 2.

Definition Suspend : Action := 0.
Definition Resume : Action := 1.

Definition actionName : gmap Z string :=
  {[ Upscale := "upscale"; Downscale := "downscale"; NoAction := "no action" ]}.

Definition jobActionName : gmap Z string :=
  {[ Suspend := "suspend"; Resume := "resume" ]}.

Definition annotationStartTime : string := "d8r/startTime".
Definition annotationStopTime : string := "d8r/stopTime".
Definition annotationTimeZone : string := "d8r/timeZone".
Definition annotationDownTimeReplicas : string := "d8r/downTimeReplicas".
Definition annotationOriginalReplicas : string := "d8r/originalReplicas".
Definition annotationDays : string := "d8r/days".

(** [m[k]] on a Go map: the zero value when the key is absent. *)
Definition index {K : Type} `{Countable K} (m : gmap K string) (k : K) : string :=
  default "" (m !! k).

(** ** Cluster objects

    The fields of [appsv1.Deployment] and [batchv1.CronJob] that the
    program reads or writes, with name, namespace and labels standing for
    the metadata it only passes along. *)
Record Deployment := {
  Namespace : string;
  Name : string;
  Labels : gmap string string;
  Annotations : gmap string string;
  Replicas : Z                        (* *deployment.Spec.Replicas, an int32 *)
}.

Record CronJob := {
  JobNamespace : string;
  JobName : string;
  JobLabels : gmap string string;
  JobAnnotations : gmap string string;
  SuspendFlag : bool                  (* *cronjob.Spec.Suspend *)
}.

(** ** The logger *)

Inductive LogLine :=
| LogError (e : error)
| LogDeployment (namespace name : string) (replicas : Z) (action : string)
| LogCronjob (namespace name : string) (action : string).

(** A computation that hands lines to the logger. *)
Definition Logged (A : Type) : Type := A * list LogLine.

Definition ret {A} (a : A) : Logged A := (a, []).

Definition bind {A B} (m : Logged A) (k : A -> Logged B) : Logged B :=
  let r := k (fst m) in (fst r, snd m ++ snd r).

Definition Log (msg : LogLine) : Logged unit := (tt, [msg]).

Notation "x <~ m ;; k" := (bind m (fun x => k))
  (at level 100, m at next level, right associativity).
Notation "m ;;; k" := (bind m (fun _ => k))
  (at level 100, right associativity).

(** ** The world outside

    [time.Now] and [time.LoadLocation] read the wall clock and the zone
    database; [Update] is the API server's answer to a write. One [World]
    is one observation of them: the clock does not move while it is used. *)
Record World := {
  Now : Z;                                            (* Unix seconds *)
  LoadLocation : string -> result GoTime.Location;
  UpdateDeployment : Deployment -> option error;
  UpdateCronJob : CronJob -> option error
}.

Section Program.

Variable w : World.

(** [time.Now()] *)
Definition timeNow : GoTime.Time := {| GoTime.unixSec := Now w; GoTime.loc := GoTime.UTC |}.

(** *** Time normalisation *)

Definition getRidOfDate (t : GoTime.Time) : result GoTime.Time :=
  let formattedTime :=
    "0000-Jan-01 " +:+ GoFmt.d02 (GoTime.Hour t) +:+ ":" +:+
    GoFmt.d02 (GoTime.Minute t) +:+ " +0000 UTC" in
  match GoTime.Parse formattedTime with
  | Err err => Err err
  | Ok resultTime => Ok resultTime
  end.

Definition ConvertTimeNowToLocal (tz : string) : result (GoTime.Time * string) :=
  match LoadLocation w tz with
  | Err err => Err err
  | Ok loc =>
      let currentTime := GoTime.In timeNow loc in
      let weekday := GoStrings.take 3 (GoTime.WeekdayString (GoTime.Weekday currentTime)) in
      match getRidOfDate currentTime with
      | Err err => Err err
      | Ok result => Ok (result, weekday)
      end
  end.

Definition ConvertAnnotationTime (t timeZone : string) : result GoTime.Time :=
  match LoadLocation w timeZone with
  | Err err => Err err
  | Ok loc =>
      let currentTime := GoTime.In timeNow loc in
      let '(zoneAbbreviation, zoneOffset) := GoTime.Zone currentTime in
      let zoneOffsetStr :=
        GoFmt.d_plus_prec2 (Z.quot zoneOffset 3600) +:+
        GoFmt.d_prec2 (Z.rem zoneOffset 3600) in
      let formattedSrcTime :=
        "0000-Jan-01 " +:+ t +:+ " " +:+ zoneOffsetStr +:+ " " +:+ zoneAbbreviation in
      match GoTime.Parse formattedSrcTime with
      | Err err => Err err
      | Ok result => Ok result
      end
  end.

(** *** Deployments *)

(** [Log(l, err.Error()); return NoAction] *)
Definition logNoAction (err : error) : Logged Action :=
  Log (LogError err) ;;; ret NoAction.

(** The [fmt.Printf] of the three instants to standard output is left
    out of both deciders. *)
Definition getDeploymentActionNeeded
    (annotations : gmap string string) (replicas : Z) : Logged Action :=
  let timeZone := index annotations annotationTimeZone in
  match ConvertTimeNowToLocal timeZone with
  | Err err => logNoAction err
  | Ok (timeNow, _) =>
  match annotations !! annotationStartTime, annotations !! annotationStopTime with
  | Some startTime, Some stopTime =>
  match ConvertAnnotationTime startTime timeZone with
  | Err err => logNoAction err
  | Ok startTimeConv =>
  match getRidOfDate startTimeConv with
  | Err err => logNoAction err
  | Ok timeStartTime =>
  match ConvertAnnotationTime stopTime timeZone with
  | Err err => logNoAction err
  | Ok stopTimeConv =>
  match getRidOfDate stopTimeConv with
  | Err err => logNoAction err
  | Ok timeStopTime =>
      (* the second [if] and the final [return NoAction] *)
      let upscale : Logged Action :=
        if GoTime.Before timeStartTime timeNow && negb (GoTime.Before timeStopTime timeNow) then
          match GoStrconv.ParseInt32 (index annotations annotationOriginalReplicas) with
          | Err err => logNoAction err
          | Ok originalReplicas =>
              if negb (replicas =? int32 originalReplicas) then ret Upscale
              else ret NoAction
          end
        else ret NoAction in
      if GoTime.Before timeStopTime timeNow || GoTime.After timeStartTime timeNow then
        match GoStrconv.ParseInt32 (index annotations annotationDownTimeReplicas) with
        | Err err => logNoAction err
        | Ok downTimeReplicas =>
            if negb (replicas =? int32 downTimeReplicas) then ret Downscale
            else upscale
        end
      else upscale
  end end end end
  | _, _ => ret NoAction
  end end.

Definition isDeploymentActionNeeded
    (annotations : gmap string string) (replicas : Z) : Logged bool :=
  match annotations !! annotationDays with
  | None => ret false
  | Some days =>
  match annotations !! annotationTimeZone with
  | None => ret false
  | Some timeZone =>
  match ConvertTimeNowToLocal timeZone with
  | Err err => Log (LogError err) ;;; ret false
  | Ok (_, today) =>
      if negb (GoStrings.Contains days today) then ret false
      else
        match annotations !! annotationDownTimeReplicas with
        | None => ret false
        | Some _ =>
            a <~ getDeploymentActionNeeded annotations replicas ;;
            if negb (a =? NoAction) then ret true else ret false
        end
  end end end.

(** [clientset.AppsV1().Deployments(ns).Update(...)] and the logging of
    its error *)
Definition updateDeployment (deployment : Deployment) : Logged unit :=
  match UpdateDeployment w deployment with
  | Some err => Log (LogError err)
  | None => ret tt
  end.

(** [deployment.Annotations[key] = value; deployment.SetAnnotations(...)] *)
Definition setAnnotation (deployment : Deployment) (key value : string) : Deployment :=
  {| Namespace := Namespace deployment;
     Name := Name deployment;
     Labels := Labels deployment;
     Annotations := <[key := value]> (Annotations deployment);
     Replicas := Replicas deployment |}.

(** [deployment.Spec.Replicas = &replicas] *)
Definition setReplicas (deployment : Deployment) (replicas : Z) : Deployment :=
  {| Namespace := Namespace deployment;
     Name := Name deployment;
     Labels := Labels deployment;
     Annotations := Annotations deployment;
     Replicas := replicas |}.

(** The body of the loop of [checkDeployments] for one item. The value
    is the object handed to [Update], if any. The check and the act are
    given the same reading of the clock, [w]; the program reads
    [time.Now] anew in each. *)
Definition checkDeployment (deployment : Deployment) : Logged (option Deployment) :=
  let annotations := Annotations deployment in
  actionNeeded <~ isDeploymentActionNeeded annotations (Replicas deployment) ;;
  if actionNeeded then
    actionToDo <~ getDeploymentActionNeeded annotations (Replicas deployment) ;;
    Log (LogDeployment (Namespace deployment) (Name deployment) (Replicas deployment)
           (index actionName actionToDo)) ;;;
    if actionToDo =? Downscale then
      match GoStrconv.ParseInt32 (index (Annotations deployment) annotationDownTimeReplicas) with
      | Err err => Log (LogError err) ;;; ret None          (* continue *)
      | Ok downTimeReplicas =>
          let deployment1 :=
            setAnnotation deployment annotationOriginalReplicas
              (GoFmt.d (Replicas deployment)) in
          let deployment2 := setReplicas deployment1 (int32 downTimeReplicas) in
          updateDeployment deployment2 ;;; ret (Some deployment2)
      end
    else if actionToDo =? Upscale then
      match GoStrconv.ParseInt32 (index (Annotations deployment) annotationOriginalReplicas) with
      | Err err => Log (LogError err) ;;; ret None          (* continue *)
      | Ok originalReplicas =>
          let deployment1 := setReplicas deployment (int32 originalReplicas) in
          updateDeployment deployment1 ;;; ret (Some deployment1)
      end
    else ret None
  else ret None.

(** The loop of [checkDeployments] over the listed items: the objects
    written, in order. *)
Fixpoint checkDeployments (items : list Deployment) : Logged (list Deployment) :=
  match items with
  | [] => ret []
  | deployment :: rest =>
      u <~ checkDeployment deployment ;;
      us <~ checkDeployments rest ;;
      ret (match u with Some d => d :: us | None => us end)
  end.

(** *** Cronjobs *)

Definition getCronjobActionNeeded
    (annotations : gmap string string) (suspend : bool) : Logged Action :=
  let timeZone := index annotations annotationTimeZone in
  match ConvertTimeNowToLocal timeZone with
  | Err err => logNoAction err
  | Ok (timeNow, _) =>
  match annotations !! annotationStartTime, annotations !! annotationStopTime with
  | Some startTime, Some stopTime =>
  match ConvertAnnotationTime startTime timeZone with
  | Err err => logNoAction err
  | Ok startTimeConv =>
  match getRidOfDate startTimeConv with
  | Err err => logNoAction err
  | Ok timeStartTime =>
  match ConvertAnnotationTime stopTime timeZone with
  | Err err => logNoAction err
  | Ok stopTimeConv =>
  match getRidOfDate stopTimeConv with
  | Err err => logNoAction err
  | Ok timeStopTime =>
      let resume : Logged Action :=
        if GoTime.Before timeStartTime timeNow && negb (GoTime.Before timeStopTime timeNow) then
          if suspend then ret Resume else ret NoAction
        else ret NoAction in
      if GoTime.Before timeStopTime timeNow || GoTime.After timeStartTime timeNow then
        if negb suspend then ret Suspend else resume
      else resume
  end end end end
  | _, _ => ret NoAction
  end end.

Definition isCronjobActionNeeded
    (annotations : gmap string string) (suspend : bool) : Logged bool :=
  match annotations !! annotationDays with
  | None => ret false
  | Some days =>
  match annotations !! annotationTimeZone with
  | None => ret false
  | Some timeZone =>
  match ConvertTimeNowToLocal timeZone with
  | Err err => Log (LogError err) ;;; ret false
  | Ok (_, today) =>
      if negb (GoStrings.Contains days today) then ret false
      else
        a <~ getCronjobActionNeeded annotations suspend ;;
        if negb (a =? NoAction) then ret true else ret false
  end end end.

Definition updateCronJob (cronjob : CronJob) : Logged unit :=
  match UpdateCronJob w cronjob with
  | Some err => Log (LogError err)
  | None => ret tt
  end.

Definition setSuspend (cronjob : CronJob) (jobSuspend : bool) : CronJob :=
  {| JobNamespace := JobNamespace cronjob;
     JobName := JobName cronjob;
     JobLabels := JobLabels cronjob;
     JobAnnotations := JobAnnotations cronjob;
     SuspendFlag := jobSuspend |}.

(** The body of the loop of [checkCronjobs] for one item; as for
    deployments, the check and the act are given the same reading of the
    clock. *)
Definition checkCronjob (cronjob : CronJob) : Logged (option CronJob) :=
  let annotations := JobAnnotations cronjob in
  let suspend := SuspendFlag cronjob in
  actionNeeded <~ isCronjobActionNeeded annotations suspend ;;
  if actionNeeded then
    actionToDo <~ getCronjobActionNeeded annotations suspend ;;
    Log (LogCronjob (JobNamespace cronjob) (JobName cronjob)
           (index jobActionName actionToDo)) ;;;
    if actionToDo =? Suspend then
      let cronjob' := setSuspend cronjob true in
      updateCronJob cronjob' ;;; ret (Some cronjob')
    else if actionToDo =? Resume then
      let cronjob' := setSuspend cronjob false in
      updateCronJob cronjob' ;;; ret (Some cronjob')
    else ret None
  else ret None.

End Program.

(* ===================================================================== *)
(** * Sample worlds and objects *)
(* ===================================================================== *)

Module Sample.

(** A zone database that knows Prague (on winter time) and UTC. *)
Definition zones (name : string) : result GoTime.Location :=
  if String.eqb name "Europe/Prague" then Ok (GoTime.FixedZone "CET" 3600)
  else if String.eqb name "UTC" || String.eqb name "" then Ok GoTime.UTC
  else Err (LocationError name).

(** [h]:[m]:[s] on the wall clock of Prague (CET), [day] days after
    Wednesday 1 November 2023. *)
Definition prague (day h m s : Z) : World :=
  {| Now := 1698796800 + day * 86400 + (h - 1) * 3600 + m * 60 + s;
     LoadLocation := zones;
     UpdateDeployment := fun _ => None;
     UpdateCronJob := fun _ => None |}.

Definition wednesday : Z -> Z -> Z -> World := prague 0.
Definition thursday : Z -> Z -> Z -> World := prague 1.
Definition saturday : Z -> Z -> Z -> World := prague 3.

Definition schedule (start stop : string) : gmap string string :=
  {[ annotationDays := "Mon,Tue,Wed,Thu,Fri";
     annotationStartTime := start;
     annotationStopTime := stop;
     annotationTimeZone := "Europe/Prague" ]}.

(** The annotations of the repository's example deployment. *)
Definition nginx : gmap string string :=
  <[annotationDownTimeReplicas := "1"]> (schedule "08:00" "16:00").

Definition nginxDown : gmap string string :=
  <[annotationOriginalReplicas := "2"]> nginx.

Definition deployment (annotations : gmap string string) (replicas : Z) : Deployment :=
  {| Namespace := "default"; Name := "nginx";
     Labels := {[ "app.kubernetes.io/name" := "nginx" ]};
     Annotations := annotations; Replicas := replicas |}.

(** A schedule without [d8r/startTime] whose zone is not in the database. *)
Definition noStart : gmap string string :=
  {[ annotationDays := "Mon,Tue,Wed,Thu,Fri";
     annotationStopTime := "16:00";
     annotationTimeZone := "Mars/Olympus";
     annotationDownTimeReplicas := "1" ]}.

Definition cronjob (annotations : gmap string string) (suspend : bool) : CronJob :=
  {| JobNamespace := "default"; JobName := "report";
     JobLabels := ∅;
     JobAnnotations := annotations; SuspendFlag := suspend |}.

End Sample.


(* ===================================================================== *)
(** * The window both deciders compute *)
(* ===================================================================== *)

(** Both deciders start with the same lines: the normalised current time,
    then the two annotations, then their conversion. [window] names the
    outcome of these lines; [getDeploymentActionNeeded_window] and
    [getCronjobActionNeeded_window] relate it to the deciders. *)
Inductive Window :=
| WindowError (err : error)        (* a conversion failed *)
| WindowUnset                      (* no startTime or no stopTime *)
| WindowAt (timeNow timeStartTime timeStopTime : GoTime.Time).

Definition window (w : World) (annotations : gmap string string) : Window :=
  let timeZone := index annotations annotationTimeZone in
  match ConvertTimeNowToLocal w timeZone with
  | Err err => WindowError err
  | Ok (timeNow, _) =>
  match annotations !! annotationStartTime, annotations !! annotationStopTime with
  | Some startTime, Some stopTime =>
  match ConvertAnnotationTime w startTime timeZone with
  | Err err => WindowError err
  | Ok startTimeConv =>
  match getRidOfDate startTimeConv with
  | Err err => WindowError err
  | Ok timeStartTime =>
  match ConvertAnnotationTime w stopTime timeZone with
  | Err err => WindowError err
  | Ok stopTimeConv =>
  match getRidOfDate stopTimeConv with
  | Err err => WindowError err
  | Ok timeStopTime => WindowAt timeNow timeStartTime timeStopTime
  end end end end
  | _, _ => WindowUnset
  end end.

(** The two conditions of the deciders, by name. *)
Definition downtime (timeNow timeStartTime timeStopTime : GoTime.Time) : bool :=
  GoTime.Before timeStopTime timeNow || GoTime.After timeStartTime timeNow.

Definition uptime (timeNow timeStartTime timeStopTime : GoTime.Time) : bool :=
  GoTime.Before timeStartTime timeNow && negb (GoTime.Before timeStopTime timeNow).

(** The lines of [getDeploymentActionNeeded] after the conversions. *)
Definition decideDeployment (annotations : gmap string string) (replicas : Z)
    (timeNow timeStartTime timeStopTime : GoTime.Time) : Logged Action :=
  let upscale : Logged Action :=
    if uptime timeNow timeStartTime timeStopTime then
      match GoStrconv.ParseInt32 (index annotations annotationOriginalReplicas) with
      | Err err => logNoAction err
      | Ok originalReplicas =>
          if negb (replicas =? int32 originalReplicas) then ret Upscale else ret NoAction
      end
    else ret NoAction in
  if downtime timeNow timeStartTime timeStopTime then
    match GoStrconv.ParseInt32 (index annotations annotationDownTimeReplicas) with
    | Err err => logNoAction err
    | Ok downTimeReplicas =>
        if negb (replicas =? int32 downTimeReplicas) then ret Downscale else upscale
    end
  else upscale.

(** The lines of [getCronjobActionNeeded] after the conversions. *)
Definition decideCronjob (suspend : bool)
    (timeNow timeStartTime timeStopTime : GoTime.Time) : Logged Action :=
  let resume : Logged Action :=
    if uptime timeNow timeStartTime timeStopTime then
      if suspend then ret Resume else ret NoAction
    else ret NoAction in
  if downtime timeNow timeStartTime timeStopTime then
    if negb suspend then ret Suspend else resume
  else resume.

(** The text [getRidOfDate] hands to [time.Parse] after the date. *)
Definition clockText (h m : Z) : string :=
  " " +:+ GoFmt.d02 h +:+ ":" +:+ GoFmt.d02 m +:+ " +0000 UTC".

(** [time.Parse] reads back hour [h] and minute [m] from that text. *)
Definition clockCheck (h m : nat) : bool :=
  bool_decide (GoTime.parseClock (clockText (Z.of_nat h) (Z.of_nat m))
               = Some (Z.of_nat h, Z.of_nat m, 0, None)).


(** The day gate of [isDeploymentActionNeeded] and [isCronjobActionNeeded]
    is passed: both annotations are there, the zone loads, and the days
    annotation contains today's abbreviation. *)
Definition scheduledToday (w : World) (annotations : gmap string string) : Prop :=
  exists days timeZone timeNow today,
    annotations !! annotationDays = Some days /\
    annotations !! annotationTimeZone = Some timeZone /\
    ConvertTimeNowToLocal w timeZone = Ok (timeNow, today) /\
    GoStrings.Contains days today = true.

(** One of the four schedule annotations is absent. *)
Definition optedOut (annotations : gmap string string) : Prop :=
  annotations !! annotationDays = None \/
  annotations !! annotationStartTime = None \/
  annotations !! annotationStopTime = None \/
  annotations !! annotationTimeZone = None.

(** An instant of the reference day: hour and minute on 0000-01-01 UTC. *)
Definition dateStripped (t : GoTime.Time) : Prop :=
  exists h m, 0 <= h < 24 /\ 0 <= m < 60 /\ t = GoTime.refTime h m.

(** What the day gate hands to the logger before it looks at the days:
    the failure to load the zone, when both annotations are there and the
    zone does not load. *)
Definition gateLog (w : World) (annotations : gmap string string) : list LogLine :=
  match annotations !! annotationDays, annotations !! annotationTimeZone with
  | Some _, Some timeZone =>
      match LoadLocation w timeZone with
      | Err err => [LogError err]
      | Ok _ => []
      end
  | _, _ => []
  end.

(* ===================================================================== *)
(** * Further definitions *)
(* ===================================================================== *)

(** The body of the loop of [checkCronjobs], over the listed items: the
    objects written, in order. *)
Fixpoint checkCronjobs (w : World) (items : list CronJob) : Logged (list CronJob) :=
  match items with
  | [] => ret []
  | cronjob :: rest =>
      u <~ checkCronjob w cronjob ;;
      us <~ checkCronjobs w rest ;;
      ret (match u with Some c => c :: us | None => us end)
  end.

(** minutes since midnight on the wall clock of [t]'s location *)
Definition minuteOfDay (t : GoTime.Time) : Z := GoTime.Hour t * 60 + GoTime.Minute t.

(** [%02d] of [n] is two digits that read [n]. *)
Definition d02Check (n : nat) : bool :=
  match GoFmt.d02 (Z.of_nat n) with
  | String a (String b EmptyString) =>
      Byte.is_digit a && Byte.is_digit b &&
      (Byte.digit_val a * 10 + Byte.digit_val b =? Z.of_nat n)
  | _ => false
  end.

(** [%+.02d] of [n - 24] is a sign and two digits that read [|n - 24|]. *)
Definition plusPrec2Check (n : nat) : bool :=
  let q := Z.of_nat n - 24 in
  match GoFmt.d_plus_prec2 q with
  | String sign (String a (String b EmptyString)) =>
      Byte.eqb sign (if q <? 0 then "-" else "+") &&
      Byte.is_digit a && Byte.is_digit b &&
      (Byte.digit_val a * 10 + Byte.digit_val b =? Z.abs q)
  | _ => false
  end.

(** [%.02d] of [n + 100] has a digit in third place. *)
Definition prec2LongCheck (n : nat) : bool :=
  match GoFmt.d_prec2 (Z.of_nat n + 100) with
  | String _ (String _ (String c _)) => Byte.is_digit c
  | _ => false
  end.

(** The object a pass leaves behind: the one written, or the one read. *)
Definition reconciled (w : World) (deployment : Deployment) : Deployment :=
  default deployment (fst (checkDeployment w deployment)).

Definition reconciledJob (w : World) (cronjob : CronJob) : CronJob :=
  default cronjob (fst (checkCronjob w cronjob)).

(** A world whose zone is half an hour off the hour. *)
Module India.

Definition zones (name : string) : result GoTime.Location :=
  if String.eqb name "Asia/Kolkata" then Ok (GoTime.FixedZone "IST" 19800)
  else Err (LocationError name).

(** [h]:[m] on the wall clock of Kolkata, Wednesday 1 November 2023. *)
Definition wednesday (h m : Z) : World :=
  {| Now := 1698796800 + h * 3600 + m * 60 - 19800;
     LoadLocation := zones;
     UpdateDeployment := fun _ => None;
     UpdateCronJob := fun _ => None |}.

Definition nginx : gmap string string :=
  {[ annotationDays := "Mon,Tue,Wed,Thu,Fri";
     annotationStartTime := "08:00";
     annotationStopTime := "16:00";
     annotationTimeZone := "Asia/Kolkata";
     annotationDownTimeReplicas := "1" ]}.

End India.

(* ===================================================================== *)
(** * Facts about the library functions *)
(* ===================================================================== *)

Lemma of_digit_is_digit k : 0 <= k < 10 -> Byte.is_digit (Byte.of_digit k) = true.
Proof.
  intros Hk.
  assert (Hc : k = 0 \/ k = 1 \/ k = 2 \/ k = 3 \/ k = 4 \/ k = 5 \/ k = 6 \/ k = 7 \/ k = 8 \/ k = 9) by lia.
  repeat (destruct Hc as [-> | Hc]; [reflexivity |]). subst k. reflexivity.
Qed.

Lemma of_digit_val k : 0 <= k < 10 -> Byte.digit_val (Byte.of_digit k) = k.
Proof.
  intros Hk.
  assert (Hc : k = 0 \/ k = 1 \/ k = 2 \/ k = 3 \/ k = 4 \/ k = 5 \/ k = 6 \/ k = 7 \/ k = 8 \/ k = 9) by lia.
  repeat (destruct Hc as [-> | Hc]; [reflexivity |]). subst k. reflexivity.
Qed.

Lemma is_digit_val c : Byte.is_digit c = true -> 0 <= Byte.digit_val c < 10.
Proof. unfold Byte.is_digit, Byte.digit_val. lia. Qed.

(** Parsing the digits that [formatBits] wrote gives the number back. *)
Lemma parseLoop_formatBits fuel : forall u acc,
  0 <= u <= GoStrconv.maxVal32 -> u < 10 ^ Z.of_nat fuel ->
  GoStrconv.parseLoop (GoStrconv.formatBits fuel u acc) 0 = GoStrconv.parseLoop acc u.
Proof.
  induction fuel as [| fuel IH]; intros u acc Hu Hfuel.
  - simpl in Hfuel. assert (u = 0) by lia. subst u. reflexivity.
  - cbn [GoStrconv.formatBits].
    destruct (Z.ltb_spec u 10) as [Hlt | Hge].
    + cbn [GoStrconv.parseLoop].
      rewrite of_digit_is_digit, of_digit_val by lia.
      replace (0 * 10 + u) with u by lia.
      destruct (Z.ltb_spec GoStrconv.maxVal32 u); [lia | reflexivity].
    + rewrite IH.
      * cbn [GoStrconv.parseLoop].
        pose proof (Z.mod_pos_bound u 10 ltac:(lia)) as Hm.
        rewrite of_digit_is_digit, of_digit_val by lia.
        replace (u / 10 * 10 + u mod 10) with u by (pose proof (Z.div_mod u 10 ltac:(lia)); lia).
        destruct (Z.ltb_spec GoStrconv.maxVal32 u); [lia | reflexivity].
      * split; [apply Z.div_pos; lia |].
        apply Z.le_trans with u; [| lia].
        apply Z.div_le_upper_bound; lia.
      * apply Z.div_lt_upper_bound; [lia |].
        rewrite Nat2Z.inj_succ, Z.pow_succ_r in Hfuel by lia. lia.
Qed.

Lemma formatBits_nonempty fuel u acc :
  GoStrconv.formatBits (S fuel) u acc <> EmptyString.
Proof.
  revert u acc. induction fuel as [| fuel IH]; intros u acc; cbn [GoStrconv.formatBits].
  - destruct (u <? 10); discriminate.
  - destruct (u <? 10); [discriminate |]. apply IH.
Qed.

Lemma ParseUint32_FormatUint u :
  0 <= u <= GoStrconv.maxVal32 ->
  GoStrconv.ParseUint32 (GoStrconv.FormatUint u) = inr u.
Proof.
  intros Hu. unfold GoStrconv.ParseUint32, GoStrconv.FormatUint.
  pose proof (formatBits_nonempty 19 u EmptyString) as Hne.
  destruct (GoStrconv.formatBits 20 u "") eqn:E; [congruence |].
  rewrite <- E. rewrite parseLoop_formatBits; [reflexivity | lia |].
  unfold GoStrconv.maxVal32 in Hu. lia.
Qed.

(** The first byte of a formatted number is a digit. *)
Lemma formatBits_head fuel : forall u acc, 0 <= u ->
  exists c rest, GoStrconv.formatBits (S fuel) u acc = String c rest /\ Byte.is_digit c = true.
Proof.
  induction fuel as [| fuel IH]; intros u acc Hu; cbn [GoStrconv.formatBits].
  - destruct (Z.ltb_spec u 10).
    + eexists _, _. split; [reflexivity | apply of_digit_is_digit; lia].
    + eexists _, _. split; [reflexivity|]. apply of_digit_is_digit. apply Z.mod_pos_bound. lia.
  - destruct (Z.ltb_spec u 10).
    + eexists _, _. split; [reflexivity | apply of_digit_is_digit; lia].
    + apply IH. apply Z.div_pos; lia.
Qed.

Lemma digits_1 v : GoFmt.digits 1 v = GoStrconv.FormatUint (Z.abs v).
Proof.
  unfold GoFmt.digits, GoStrconv.FormatUint.
  destruct (formatBits_head 19 (Z.abs v) EmptyString ltac:(lia)) as (c & rest & -> & _).
  reflexivity.
Qed.

Lemma is_digit_not_sign c :
  Byte.is_digit c = true -> Byte.eqb c "+" = false /\ Byte.eqb c "-" = false.
Proof.
  intros H. unfold Byte.eqb. split.
  - destruct (Ascii.eqb_spec c "+"%char) as [-> |]; [discriminate H | reflexivity].
  - destruct (Ascii.eqb_spec c "-"%char) as [-> |]; [discriminate H | reflexivity].
Qed.

(** [ParseInt(Sprintf("%d", v), 10, 32)] is [v] for every [int32] value. *)
Lemma ParseInt32_d v :
  - 2 ^ 31 <= v < 2 ^ 31 -> GoStrconv.ParseInt32 (GoFmt.d v) = Ok v.
Proof.
  intros Hv. unfold GoFmt.d. rewrite digits_1.
  destruct (Z.ltb_spec v 0) as [Hneg | Hpos].
  - change ("-" +:+ GoStrconv.FormatUint (Z.abs v))
      with (String "-" (GoStrconv.FormatUint (Z.abs v))).
    unfold GoStrconv.ParseInt32.
    change (Byte.eqb "-" "-") with true. change (Byte.eqb "-" "+") with false.
    cbn [orb].
    rewrite ParseUint32_FormatUint by (unfold GoStrconv.maxVal32; lia).
    cbn [negb andb].
    destruct (Z.ltb_spec (2 ^ 31) (Z.abs v)); [lia |].
    f_equal. lia.
  - change ("" +:+ GoStrconv.FormatUint (Z.abs v)) with (GoStrconv.FormatUint (Z.abs v)).
    pose proof (ParseUint32_FormatUint (Z.abs v) ltac:(unfold GoStrconv.maxVal32; lia)) as HP.
    unfold GoStrconv.FormatUint in *.
    destruct (formatBits_head 19 (Z.abs v) EmptyString ltac:(lia)) as (c & rest & E & Hc).
    rewrite E in *. unfold GoStrconv.ParseInt32.
    destruct (is_digit_not_sign c Hc) as [-> ->]. cbn [orb].
    rewrite HP. cbn [negb andb].
    destruct (Z.leb_spec (2 ^ 31) (Z.abs v)); [lia |].
    f_equal. lia.
Qed.

Lemma parseLoop_range s : forall n v,
  0 <= n -> GoStrconv.parseLoop s n = inr v -> 0 <= v <= GoStrconv.maxVal32 \/ v = n.
Proof.
  induction s as [| c s IH]; intros n v Hn H; cbn [GoStrconv.parseLoop] in H.
  - right. congruence.
  - destruct (Byte.is_digit c) eqn:Hc; [| discriminate].
    destruct (Z.ltb_spec GoStrconv.maxVal32 (n * 10 + Byte.digit_val c)); [discriminate |].
    pose proof (is_digit_val c Hc).
    destruct (IH (n * 10 + Byte.digit_val c) v ltac:(lia) H) as [Hr | ->]; [left; exact Hr | left; lia].
Qed.

(** A successful [ParseInt(s, 10, 32)] fits [int32]. *)
Lemma ParseInt32_range s v :
  GoStrconv.ParseInt32 s = Ok v -> - 2 ^ 31 <= v < 2 ^ 31.
Proof.
  unfold GoStrconv.ParseInt32. destruct s as [| c rest]; [discriminate |].
  destruct (GoStrconv.ParseUint32 _) as [[] | un] eqn:E; try discriminate.
  assert (Hun : 0 <= un).
  { unfold GoStrconv.ParseUint32 in E.
    destruct (if Byte.eqb c "+" || Byte.eqb c "-" then rest else String c rest) eqn:Es;
      [discriminate |].
    destruct (parseLoop_range _ 0 un ltac:(lia) E); lia. }
  destruct (Byte.eqb c "-"); cbn [negb andb].
  - destruct (Z.ltb_spec (2 ^ 31) un); [discriminate |]. intros [= <-]. lia.
  - destruct (Z.leb_spec (2 ^ 31) un); [discriminate |]. intros [= <-]. lia.
Qed.

Lemma int32_id v : - 2 ^ 31 <= v < 2 ^ 31 -> int32 v = v.
Proof.
  intros Hv. unfold int32. rewrite Z.mod_small by lia. lia.
Qed.

Lemma HasPrefix_spec p : forall s,
  GoStrings.HasPrefix s p = true <-> exists post, s = p +:+ post.
Proof.
  induction p as [| c p IH]; intros s; cbn.
  - split; [intros _; exists s; reflexivity | intros _; destruct s; reflexivity].
  - destruct s as [| c' s]; cbn.
    + split; [discriminate | intros [post [=]]].
    + unfold Byte.eqb. destruct (Ascii.eqb_spec c' c) as [-> | NE]; cbn.
      * rewrite IH. split; intros [post H]; exists post; [rewrite H; reflexivity |].
        cbn in H. injection H as ->. reflexivity.
      * split; [discriminate | intros [post H]]. cbn in H. injection H as E _. congruence.
Qed.

Lemma Contains_spec substr : forall s,
  GoStrings.Contains s substr = true <-> exists pre post, s = pre +:+ substr +:+ post.
Proof.
  intros s. split.
  - induction s as [| c s IH].
    + cbn [GoStrings.Contains]. rewrite orb_false_r, HasPrefix_spec.
      intros [post H]. exists "", post. exact H.
    + cbn [GoStrings.Contains]. rewrite orb_true_iff, HasPrefix_spec.
      intros [[post ->] | H].
      * exists "", post. reflexivity.
      * destruct (IH H) as (pre & post & ->). exists (String c pre), post. reflexivity.
  - intros (pre & post & ->). induction pre as [| c pre IH].
    + change (GoStrings.Contains (substr +:+ post) substr = true).
      assert (H : GoStrings.HasPrefix (substr +:+ post) substr = true)
        by (apply HasPrefix_spec; eauto).
      destruct (substr +:+ post); cbn [GoStrings.Contains]; rewrite H; reflexivity.
    + change (GoStrings.Contains (String c (pre +:+ substr +:+ post)) substr = true).
      cbn [GoStrings.Contains]. rewrite IH. apply orb_true_r.
Qed.

Lemma clockCheck_all :
  forallb (fun h => forallb (clockCheck h) (seq 0 60)) (seq 0 24) = true.
Proof. vm_compute. reflexivity. Qed.

Lemma parseClock_clockText h m :
  0 <= h < 24 -> 0 <= m < 60 ->
  GoTime.parseClock (clockText h m) = Some (h, m, 0, None).
Proof.
  intros Hh Hm.
  pose proof clockCheck_all as Hall.
  rewrite forallb_forall in Hall.
  specialize (Hall (Z.to_nat h)).
  rewrite forallb_forall in Hall.
  assert (Hin : In (Z.to_nat h) (seq 0 24)) by (apply in_seq; lia).
  specialize (Hall Hin (Z.to_nat m)).
  assert (Hin' : In (Z.to_nat m) (seq 0 60)) by (apply in_seq; lia).
  specialize (Hall Hin').
  unfold clockCheck in Hall. apply bool_decide_eq_true in Hall.
  rewrite !Z2Nat.id in Hall by lia. exact Hall.
Qed.

Lemma Hour_range t : 0 <= GoTime.Hour t < 24.
Proof.
  unfold GoTime.Hour.
  pose proof (Z.mod_pos_bound (GoTime.abs t) 86400 ltac:(lia)) as Hb.
  split.
  - apply Z.div_pos; lia.
  - apply Z.div_lt_upper_bound; lia.
Qed.

Lemma Minute_range t : 0 <= GoTime.Minute t < 60.
Proof.
  unfold GoTime.Minute.
  pose proof (Z.mod_pos_bound (GoTime.abs t) 3600 ltac:(lia)) as Hb.
  split.
  - apply Z.div_pos; lia.
  - apply Z.div_lt_upper_bound; lia.
Qed.

Lemma Weekday_range t : 0 <= GoTime.Weekday t < 7.
Proof. unfold GoTime.Weekday. apply Z.mod_pos_bound. lia. Qed.

(** The abbreviation is one of the seven three-letter day names. *)
Lemma today_abbreviation t :
  In (GoStrings.take 3 (GoTime.WeekdayString (GoTime.Weekday t)))
     ["Sun"; "Mon"; "Tue"; "Wed"; "Thu"; "Fri"; "Sat"].
Proof.
  pose proof (Weekday_range t) as H.
  assert (Hc : GoTime.Weekday t = 0 \/ GoTime.Weekday t = 1 \/ GoTime.Weekday t = 2 \/
               GoTime.Weekday t = 3 \/ GoTime.Weekday t = 4 \/ GoTime.Weekday t = 5 \/
               GoTime.Weekday t = 6) by lia.
  repeat (destruct Hc as [-> | Hc]; [cbn; tauto |]). rewrite Hc. cbn. tauto.
Qed.

(* ===================================================================== *)
(** * Time normalisation *)
(* ===================================================================== *)

Lemma getRidOfDate_total t :
  getRidOfDate t = Ok (GoTime.refTime (GoTime.Hour t) (GoTime.Minute t)).
Proof.
  unfold getRidOfDate, GoTime.Parse.
  change (GoStrings.HasPrefix ("0000-Jan-01 " +:+ GoFmt.d02 (GoTime.Hour t) +:+ ":" +:+
      GoFmt.d02 (GoTime.Minute t) +:+ " +0000 UTC") GoTime.refDate) with true.
  change (GoStrings.drop (String.length GoTime.refDate) ("0000-Jan-01 " +:+ GoFmt.d02 (GoTime.Hour t) +:+ ":" +:+
      GoFmt.d02 (GoTime.Minute t) +:+ " +0000 UTC")) with (clockText (GoTime.Hour t) (GoTime.Minute t)).
  rewrite parseClock_clockText by (apply Hour_range || apply Minute_range).
  reflexivity.
Qed.

Lemma ConvertTimeNowToLocal_eq w tz :
  ConvertTimeNowToLocal w tz =
  match LoadLocation w tz with
  | Err err => Err err
  | Ok loc =>
      let currentTime := GoTime.In (timeNow w) loc in
      Ok (GoTime.refTime (GoTime.Hour currentTime) (GoTime.Minute currentTime),
          GoStrings.take 3 (GoTime.WeekdayString (GoTime.Weekday currentTime)))
  end.
Proof.
  unfold ConvertTimeNowToLocal. destruct (LoadLocation w tz); [| reflexivity].
  cbv zeta. rewrite getRidOfDate_total. reflexivity.
Qed.

(* ===================================================================== *)
(** * The window and the deciders *)
(* ===================================================================== *)

Lemma getDeploymentActionNeeded_window w annotations replicas :
  getDeploymentActionNeeded w annotations replicas =
  match window w annotations with
  | WindowError err => logNoAction err
  | WindowUnset => ret NoAction
  | WindowAt timeNow timeStartTime timeStopTime =>
      decideDeployment annotations replicas timeNow timeStartTime timeStopTime
  end.
Proof.
  unfold getDeploymentActionNeeded, window.
  repeat (case_match; try reflexivity).
Qed.

Lemma getCronjobActionNeeded_window w annotations suspend :
  getCronjobActionNeeded w annotations suspend =
  match window w annotations with
  | WindowError err => logNoAction err
  | WindowUnset => ret NoAction
  | WindowAt timeNow timeStartTime timeStopTime =>
      decideCronjob suspend timeNow timeStartTime timeStopTime
  end.
Proof.
  unfold getCronjobActionNeeded, window.
  repeat (case_match; try reflexivity).
Qed.

(** The three instants are instants of the reference day. *)
Lemma window_date_stripped w annotations n s e :
  window w annotations = WindowAt n s e ->
  dateStripped n /\ dateStripped s /\ dateStripped e.
Proof.
  unfold window. rewrite ConvertTimeNowToLocal_eq.
  destruct (LoadLocation w _); [| discriminate]. cbv beta iota zeta.
  destruct (annotations !! annotationStartTime); [| discriminate].
  destruct (annotations !! annotationStopTime); [| discriminate].
  destruct (ConvertAnnotationTime w _ _) as [startTimeConv |]; [| discriminate].
  rewrite getRidOfDate_total.
  destruct (ConvertAnnotationTime w _ _) as [stopTimeConv |]; [| discriminate].
  rewrite getRidOfDate_total.
  intros [= <- <- <-]. unfold dateStripped.
  repeat split; eexists _, _; (split; [apply Hour_range |]);
    (split; [apply Minute_range | reflexivity]).
Qed.

Lemma index_Some (annotations : gmap string string) key value :
  annotations !! key = Some value -> index annotations key = value.
Proof. intros H. unfold index. rewrite H. reflexivity. Qed.

Lemma index_insert (annotations : gmap string string) key value :
  index (<[key := value]> annotations) key = value.
Proof. unfold index. rewrite lookup_insert_eq. reflexivity. Qed.

(** An absent annotation reads as the empty string, which does not parse. *)
Lemma ParseInt32_absent (annotations : gmap string string) key :
  annotations !! key = None ->
  GoStrconv.ParseInt32 (index annotations key) = Err (NumError "ParseInt" "" ErrSyntax).
Proof. intros H. unfold index. rewrite H. reflexivity. Qed.

Lemma window_unset w annotations timeZone loc :
  annotations !! annotationTimeZone = Some timeZone ->
  LoadLocation w timeZone = Ok loc ->
  annotations !! annotationStartTime = None \/ annotations !! annotationStopTime = None ->
  window w annotations = WindowUnset.
Proof.
  intros Htz Hloc Habsent. unfold window. rewrite (index_Some _ _ _ Htz).
  rewrite ConvertTimeNowToLocal_eq, Hloc. cbv zeta.
  destruct Habsent as [-> | ->]; [reflexivity |].
  destruct (annotations !! annotationStartTime); reflexivity.
Qed.

Lemma uptime_spec n s e :
  uptime n s e = true <->
  GoTime.unixSec s < GoTime.unixSec n <= GoTime.unixSec e.
Proof.
  unfold uptime, GoTime.Before.
  rewrite andb_true_iff, negb_true_iff, Z.ltb_lt, Z.ltb_ge. lia.
Qed.

Lemma downtime_spec n s e :
  downtime n s e = true <->
  GoTime.unixSec e < GoTime.unixSec n \/ GoTime.unixSec n < GoTime.unixSec s.
Proof.
  unfold downtime, GoTime.Before, GoTime.After.
  rewrite orb_true_iff, !Z.ltb_lt. lia.
Qed.

Lemma uptime_not_downtime n s e : uptime n s e = true -> downtime n s e = false.
Proof.
  intros Hup. apply uptime_spec in Hup.
  destruct (downtime n s e) eqn:Hd; [| reflexivity].
  apply downtime_spec in Hd. lia.
Qed.

(** At the start instant neither condition holds. *)
Lemma start_instant_neither n s e :
  GoTime.unixSec n = GoTime.unixSec s -> GoTime.unixSec s <= GoTime.unixSec e ->
  downtime n s e = false /\ uptime n s e = false.
Proof.
  intros Hn Hse. unfold downtime, uptime, GoTime.Before, GoTime.After.
  rewrite Hn, Z.ltb_irrefl. cbn.
  destruct (Z.ltb_spec (GoTime.unixSec e) (GoTime.unixSec s)); [lia | auto].
Qed.

(** At the stop instant of a same-day window the uptime condition holds. *)
Lemma stop_instant_uptime n s e :
  GoTime.unixSec n = GoTime.unixSec e -> GoTime.unixSec s < GoTime.unixSec e ->
  uptime n s e = true.
Proof. intros Hn Hse. apply uptime_spec. lia. Qed.

(** Case analysis on the two conditions, the parsed annotation and the
    comparison of the replica counts. *)
Ltac decide_cases n s e :=
  pose proof (uptime_not_downtime n s e);
  unfold decideDeployment, decideCronjob, logNoAction;
  repeat match goal with
  | |- context [negb (?a =? ?b)] => destruct (Z.eqb_spec a b)
  | |- context [if ?b then _ else _] => is_var b; destruct b
  | |- context [if ?b then _ else _] => destruct b eqn:?
  | |- context [match ?r with Ok _ => _ | Err _ => _ end] => destruct r eqn:?
  end; cbn; naive_solver.

Lemma decideDeployment_Downscale annotations replicas n s e :
  fst (decideDeployment annotations replicas n s e) = Downscale <->
  downtime n s e = true /\
  exists d, GoStrconv.ParseInt32 (index annotations annotationDownTimeReplicas) = Ok d /\
            replicas <> int32 d.
Proof. decide_cases n s e. Qed.

Lemma decideDeployment_Upscale annotations replicas n s e :
  fst (decideDeployment annotations replicas n s e) = Upscale <->
  uptime n s e = true /\
  exists o, GoStrconv.ParseInt32 (index annotations annotationOriginalReplicas) = Ok o /\
            replicas <> int32 o.
Proof. decide_cases n s e. Qed.

Lemma decideCronjob_Suspend suspend n s e :
  fst (decideCronjob suspend n s e) = Suspend <->
  downtime n s e = true /\ suspend = false.
Proof. decide_cases n s e. Qed.

Lemma decideCronjob_Resume suspend n s e :
  fst (decideCronjob suspend n s e) = Resume <->
  uptime n s e = true /\ suspend = true.
Proof. decide_cases n s e. Qed.

(** The deciders return one of the three actions. *)
Lemma decideDeployment_range annotations replicas n s e :
  let a := fst (decideDeployment annotations replicas n s e) in
  a = Upscale \/ a = Downscale \/ a = NoAction.
Proof. decide_cases n s e. Qed.

Lemma getDeploymentActionNeeded_range w annotations replicas :
  let a := fst (getDeploymentActionNeeded w annotations replicas) in
  a = Upscale \/ a = Downscale \/ a = NoAction.
Proof.
  rewrite getDeploymentActionNeeded_window.
  destruct (window w annotations); cbn; auto using decideDeployment_range.
Qed.

Lemma getCronjobActionNeeded_range w annotations suspend :
  let a := fst (getCronjobActionNeeded w annotations suspend) in
  a = Suspend \/ a = Resume \/ a = NoAction.
Proof.
  rewrite getCronjobActionNeeded_window.
  destruct (window w annotations) as [| | n s e]; cbn; auto.
  decide_cases n s e.
Qed.

Lemma getDeploymentActionNeeded_Downscale w annotations replicas :
  fst (getDeploymentActionNeeded w annotations replicas) = Downscale ->
  exists d, GoStrconv.ParseInt32 (index annotations annotationDownTimeReplicas) = Ok d /\
            replicas <> int32 d.
Proof.
  rewrite getDeploymentActionNeeded_window.
  destruct (window w annotations); try discriminate.
  rewrite decideDeployment_Downscale. tauto.
Qed.

Lemma getDeploymentActionNeeded_Upscale w annotations replicas :
  fst (getDeploymentActionNeeded w annotations replicas) = Upscale ->
  exists o, GoStrconv.ParseInt32 (index annotations annotationOriginalReplicas) = Ok o /\
            replicas <> int32 o.
Proof.
  rewrite getDeploymentActionNeeded_window.
  destruct (window w annotations); try discriminate.
  rewrite decideDeployment_Upscale. tauto.
Qed.

Lemma start_instant_no_action w annotations n s e :
  window w annotations = WindowAt n s e ->
  GoTime.unixSec n = GoTime.unixSec s -> GoTime.unixSec s <= GoTime.unixSec e ->
  (forall replicas, getDeploymentActionNeeded w annotations replicas = (NoAction, [])) /\
  (forall suspend, getCronjobActionNeeded w annotations suspend = (NoAction, [])).
Proof.
  intros Hw Hn Hse. destruct (start_instant_neither n s e Hn Hse) as [Hd Hu].
  split; intros x.
  - rewrite getDeploymentActionNeeded_window, Hw. unfold decideDeployment.
    rewrite Hd, Hu. reflexivity.
  - rewrite getCronjobActionNeeded_window, Hw. unfold decideCronjob.
    rewrite Hd, Hu. reflexivity.
Qed.

(* ===================================================================== *)
(** * The gate and the loop body *)
(* ===================================================================== *)

Lemma isDeploymentActionNeeded_eq w annotations replicas :
  isDeploymentActionNeeded w annotations replicas =
  match annotations !! annotationDays, annotations !! annotationTimeZone with
  | Some days, Some timeZone =>
      match ConvertTimeNowToLocal w timeZone with
      | Err err => (false, [LogError err])
      | Ok (_, today) =>
          if GoStrings.Contains days today then
            match annotations !! annotationDownTimeReplicas with
            | None => (false, [])
            | Some _ =>
                let r := getDeploymentActionNeeded w annotations replicas in
                (negb (fst r =? NoAction), snd r)
            end
          else (false, [])
      end
  | _, _ => (false, [])
  end.
Proof.
  unfold isDeploymentActionNeeded.
  destruct (annotations !! annotationDays); [| reflexivity].
  destruct (annotations !! annotationTimeZone); [| reflexivity].
  destruct (ConvertTimeNowToLocal w s0) as [[? today] |]; [| reflexivity].
  destruct (GoStrings.Contains s today); [| reflexivity].
  destruct (annotations !! annotationDownTimeReplicas); [| reflexivity].
  unfold bind, ret. cbn [negb fst snd].
  destruct (fst (getDeploymentActionNeeded w annotations replicas) =? NoAction);
    cbn; rewrite app_nil_r; reflexivity.
Qed.

Lemma isCronjobActionNeeded_eq w annotations suspend :
  isCronjobActionNeeded w annotations suspend =
  match annotations !! annotationDays, annotations !! annotationTimeZone with
  | Some days, Some timeZone =>
      match ConvertTimeNowToLocal w timeZone with
      | Err err => (false, [LogError err])
      | Ok (_, today) =>
          if GoStrings.Contains days today then
            let r := getCronjobActionNeeded w annotations suspend in
            (negb (fst r =? NoAction), snd r)
          else (false, [])
      end
  | _, _ => (false, [])
  end.
Proof.
  unfold isCronjobActionNeeded.
  destruct (annotations !! annotationDays); [| reflexivity].
  destruct (annotations !! annotationTimeZone); [| reflexivity].
  destruct (ConvertTimeNowToLocal w s0) as [[? today] |]; [| reflexivity].
  destruct (GoStrings.Contains s today); [| reflexivity].
  unfold bind, ret. cbn [negb fst snd].
  destruct (fst (getCronjobActionNeeded w annotations suspend) =? NoAction);
    cbn; rewrite app_nil_r; reflexivity.
Qed.

Lemma checkDeployment_fst w deployment :
  fst (checkDeployment w deployment) =
  if fst (isDeploymentActionNeeded w (Annotations deployment) (Replicas deployment)) then
    let actionToDo :=
      fst (getDeploymentActionNeeded w (Annotations deployment) (Replicas deployment)) in
    if actionToDo =? Downscale then
      match GoStrconv.ParseInt32 (index (Annotations deployment) annotationDownTimeReplicas) with
      | Err _ => None
      | Ok downTimeReplicas =>
          Some (setReplicas
                  (setAnnotation deployment annotationOriginalReplicas
                     (GoFmt.d (Replicas deployment)))
                  (int32 downTimeReplicas))
      end
    else if actionToDo =? Upscale then
      match GoStrconv.ParseInt32 (index (Annotations deployment) annotationOriginalReplicas) with
      | Err _ => None
      | Ok originalReplicas => Some (setReplicas deployment (int32 originalReplicas))
      end
    else None
  else None.
Proof.
  unfold checkDeployment, bind. cbn [fst snd].
  destruct (fst (isDeploymentActionNeeded _ _ _)); [| reflexivity].
  cbn [fst snd]. cbv zeta.
  destruct (fst (getDeploymentActionNeeded _ _ _) =? Downscale).
  - destruct (GoStrconv.ParseInt32 _); reflexivity.
  - destruct (fst (getDeploymentActionNeeded _ _ _) =? Upscale); [| reflexivity].
    destruct (GoStrconv.ParseInt32 _); reflexivity.
Qed.

Lemma checkDeployment_not_needed w deployment :
  fst (isDeploymentActionNeeded w (Annotations deployment) (Replicas deployment)) = false ->
  checkDeployment w deployment =
  (None, snd (isDeploymentActionNeeded w (Annotations deployment) (Replicas deployment))).
Proof.
  intros H. unfold checkDeployment, bind. rewrite H. cbn. rewrite app_nil_r. reflexivity.
Qed.

Lemma checkCronjob_fst w cronjob :
  fst (checkCronjob w cronjob) =
  if fst (isCronjobActionNeeded w (JobAnnotations cronjob) (SuspendFlag cronjob)) then
    let actionToDo :=
      fst (getCronjobActionNeeded w (JobAnnotations cronjob) (SuspendFlag cronjob)) in
    if actionToDo =? Suspend then Some (setSuspend cronjob true)
    else if actionToDo =? Resume then Some (setSuspend cronjob false)
    else None
  else None.
Proof.
  unfold checkCronjob, bind. cbn [fst snd].
  destruct (fst (isCronjobActionNeeded _ _ _)); [| reflexivity].
  cbn [fst snd]. cbv zeta.
  destruct (fst (getCronjobActionNeeded _ _ _) =? Suspend); [reflexivity |].
  destruct (fst (getCronjobActionNeeded _ _ _) =? Resume); reflexivity.
Qed.

Lemma checkCronjob_not_needed w cronjob :
  fst (isCronjobActionNeeded w (JobAnnotations cronjob) (SuspendFlag cronjob)) = false ->
  checkCronjob w cronjob =
  (None, snd (isCronjobActionNeeded w (JobAnnotations cronjob) (SuspendFlag cronjob))).
Proof.
  intros H. unfold checkCronjob, bind. rewrite H. cbn. rewrite app_nil_r. reflexivity.
Qed.

(** What [checkDeployment] writes, by the action decided. *)
Lemma checkDeployment_Some w deployment deployment' :
  fst (checkDeployment w deployment) = Some deployment' ->
  let actionToDo :=
    fst (getDeploymentActionNeeded w (Annotations deployment) (Replicas deployment)) in
  (actionToDo = Downscale /\
   exists d, GoStrconv.ParseInt32 (index (Annotations deployment) annotationDownTimeReplicas) = Ok d /\
     deployment' = setReplicas (setAnnotation deployment annotationOriginalReplicas
                                  (GoFmt.d (Replicas deployment))) d) \/
  (actionToDo = Upscale /\
   exists o, GoStrconv.ParseInt32 (index (Annotations deployment) annotationOriginalReplicas) = Ok o /\
     deployment' = setReplicas deployment o).
Proof.
  rewrite checkDeployment_fst. cbv zeta.
  destruct (fst (isDeploymentActionNeeded _ _ _)); [| discriminate].
  destruct (Z.eqb_spec (fst (getDeploymentActionNeeded w (Annotations deployment)
                               (Replicas deployment))) Downscale) as [E | NE].
  - destruct (GoStrconv.ParseInt32 _) as [d |] eqn:HP; [| discriminate].
    intros [= <-]. left. split; [exact E |]. exists d. split; [reflexivity |].
    rewrite (int32_id d) by (eapply ParseInt32_range; eauto). reflexivity.
  - destruct (Z.eqb_spec (fst (getDeploymentActionNeeded w (Annotations deployment)
                               (Replicas deployment))) Upscale) as [E | NE']; [| discriminate].
    destruct (GoStrconv.ParseInt32 _) as [o |] eqn:HP; [| discriminate].
    intros [= <-]. right. split; [exact E |]. exists o. split; [reflexivity |].
    rewrite (int32_id o) by (eapply ParseInt32_range; eauto). reflexivity.
Qed.

(** The loop writes what its body writes, item by item. *)
Lemma checkDeployments_writes w items :
  fst (checkDeployments w items) = omap (fun d => fst (checkDeployment w d)) items.
Proof.
  induction items as [| deployment rest IH]; [reflexivity |].
  cbn [checkDeployments omap list_omap]. unfold bind, ret. cbn [fst snd].
  rewrite IH. destruct (fst (checkDeployment w deployment)); reflexivity.
Qed.

Lemma isDeploymentActionNeeded_optedOut w annotations replicas :
  optedOut annotations ->
  isDeploymentActionNeeded w annotations replicas = (false, gateLog w annotations).
Proof.
  intros Hout. rewrite isDeploymentActionNeeded_eq. unfold gateLog.
  destruct (annotations !! annotationDays) as [days |] eqn:Hdays; [| reflexivity].
  destruct (annotations !! annotationTimeZone) as [tz |] eqn:Htz; [| reflexivity].
  rewrite ConvertTimeNowToLocal_eq.
  destruct (LoadLocation w tz) as [loc | err] eqn:Hloc; [| reflexivity].
  cbv beta iota zeta.
  match goal with
  | |- context [GoStrings.Contains days ?today] => destruct (GoStrings.Contains days today)
  end; [| reflexivity].
  destruct (annotations !! annotationDownTimeReplicas); [| reflexivity].
  rewrite getDeploymentActionNeeded_window, (window_unset w annotations tz loc Htz Hloc).
  - reflexivity.
  - destruct Hout as [H | [H | [H | H]]]; [congruence | auto | auto | congruence].
Qed.

Lemma isCronjobActionNeeded_optedOut w annotations suspend :
  optedOut annotations ->
  isCronjobActionNeeded w annotations suspend = (false, gateLog w annotations).
Proof.
  intros Hout. rewrite isCronjobActionNeeded_eq. unfold gateLog.
  destruct (annotations !! annotationDays) as [days |] eqn:Hdays; [| reflexivity].
  destruct (annotations !! annotationTimeZone) as [tz |] eqn:Htz; [| reflexivity].
  rewrite ConvertTimeNowToLocal_eq.
  destruct (LoadLocation w tz) as [loc | err] eqn:Hloc; [| reflexivity].
  cbv beta iota zeta.
  match goal with
  | |- context [GoStrings.Contains days ?today] => destruct (GoStrings.Contains days today)
  end; [| reflexivity].
  rewrite getCronjobActionNeeded_window, (window_unset w annotations tz loc Htz Hloc).
  - reflexivity.
  - destruct Hout as [H | [H | [H | H]]]; [congruence | auto | auto | congruence].
Qed.

(* ===================================================================== *)
(** * Window evaluation *)
(* ===================================================================== *)

(** C1. The failing input: a scheduled Wednesday at 08:00 with the
    window 08:00-16:00. The claim has the start instant in the uptime
    window; in the code the downtime test is already false there (the
    start is no longer after now) but the uptime test is not yet true
    (the start is not yet before now), so a deployment at 1 replica with
    2 recorded as original is not upscaled, the loop body writes nothing
    and a suspended cronjob is not resumed. One minute later the
    deployment is upscaled; at the stop instant it still is. *)
Theorem C1_start_instant_is_not_upscaled :
  let up := Sample.deployment Sample.nginxDown 1 in
  let job := Sample.schedule "08:00" "16:00" in
  window (Sample.wednesday 8 0 0) (Annotations up)
    = WindowAt (GoTime.refTime 8 0) (GoTime.refTime 8 0) (GoTime.refTime 16 0) /\
  downtime (GoTime.refTime 8 0) (GoTime.refTime 8 0) (GoTime.refTime 16 0) = false /\
  uptime (GoTime.refTime 8 0) (GoTime.refTime 8 0) (GoTime.refTime 16 0) = false /\
  GoStrconv.ParseInt32 (index (Annotations up) annotationOriginalReplicas) = Ok 2 /\
  getDeploymentActionNeeded (Sample.wednesday 8 0 0) (Annotations up) (Replicas up)
    = (NoAction, []) /\
  fst (checkDeployment (Sample.wednesday 8 0 0) up) = None /\
  getCronjobActionNeeded (Sample.wednesday 8 0 0) job true = (NoAction, []) /\
  getDeploymentActionNeeded (Sample.wednesday 8 1 0) (Annotations up) (Replicas up)
    = (Upscale, []) /\
  getDeploymentActionNeeded (Sample.wednesday 16 0 0) (Annotations up) (Replicas up)
    = (Upscale, []).
Proof. cbv zeta. repeat split; vm_compute; reflexivity. Qed.

(** The stop end of a same-day window: at the stop instant the resource
    is in the uptime window and an Upscale or Resume is due; strictly
    after it the resource is in downtime and a Downscale or Suspend is
    due. *)
Lemma stop_end_of_the_window
    w annotations replicas timeNow timeStartTime timeStopTime :
  window w annotations = WindowAt timeNow timeStartTime timeStopTime ->
  GoTime.Before timeStartTime timeStopTime = true ->
  let deploymentAction := fst (getDeploymentActionNeeded w annotations replicas) in
  let cronjobAction suspend := fst (getCronjobActionNeeded w annotations suspend) in
  (GoTime.unixSec timeNow = GoTime.unixSec timeStopTime ->
     uptime timeNow timeStartTime timeStopTime = true /\
     (forall o, GoStrconv.ParseInt32 (index annotations annotationOriginalReplicas) = Ok o ->
                replicas <> o -> deploymentAction = Upscale) /\
     cronjobAction true = Resume) /\
  (GoTime.unixSec timeStopTime < GoTime.unixSec timeNow ->
     downtime timeNow timeStartTime timeStopTime = true /\
     (forall d, GoStrconv.ParseInt32 (index annotations annotationDownTimeReplicas) = Ok d ->
                replicas <> d -> deploymentAction = Downscale) /\
     cronjobAction false = Suspend).
Proof.
  intros Hw Hsame. cbv zeta.
  assert (Hse : GoTime.unixSec timeStartTime < GoTime.unixSec timeStopTime)
    by (unfold GoTime.Before in Hsame; lia).
  split.
  - intros Hn.
    assert (Hu : uptime timeNow timeStartTime timeStopTime = true)
      by (apply stop_instant_uptime; lia).
    split; [exact Hu |]. split.
    + intros o HP Hne. rewrite getDeploymentActionNeeded_window, Hw.
      apply decideDeployment_Upscale. split; [exact Hu |]. exists o. split; [exact HP |].
      rewrite (int32_id o) by (eapply ParseInt32_range; eauto). exact Hne.
    + rewrite getCronjobActionNeeded_window, Hw. apply decideCronjob_Resume. auto.
  - intros Hn.
    assert (Hd : downtime timeNow timeStartTime timeStopTime = true)
      by (apply downtime_spec; lia).
    split; [exact Hd |]. split.
    + intros d HP Hne. rewrite getDeploymentActionNeeded_window, Hw.
      apply decideDeployment_Downscale. split; [exact Hd |]. exists d. split; [exact HP |].
      rewrite (int32_id d) by (eapply ParseInt32_range; eauto). exact Hne.
    + rewrite getCronjobActionNeeded_window, Hw. apply decideCronjob_Suspend. auto.
Qed.

(** C2. For the three date-stripped instants the deciders compare, the
    deployment decider returns Downscale exactly when
    [timeStopTime.Before(timeNow) || timeStartTime.After(timeNow)] holds, the
    downtime replica count parses and differs from the current one, and
    Upscale exactly when
    [timeStartTime.Before(timeNow) && !timeStopTime.Before(timeNow)] holds,
    the original replica count parses and differs from the current one;
    the cronjob decider returns Suspend exactly under the first condition
    on a job that is not suspended and Resume exactly under the second on
    a suspended one. Without the three instants no action is returned. *)
Theorem C2_window_classification w annotations replicas suspend :
  let deploymentAction := fst (getDeploymentActionNeeded w annotations replicas) in
  let cronjobAction := fst (getCronjobActionNeeded w annotations suspend) in
  (deploymentAction = Downscale <->
     exists timeNow timeStartTime timeStopTime d,
       window w annotations = WindowAt timeNow timeStartTime timeStopTime /\
       GoTime.Before timeStopTime timeNow || GoTime.After timeStartTime timeNow = true /\
       GoStrconv.ParseInt32 (index annotations annotationDownTimeReplicas) = Ok d /\
       replicas <> int32 d) /\
  (deploymentAction = Upscale <->
     exists timeNow timeStartTime timeStopTime o,
       window w annotations = WindowAt timeNow timeStartTime timeStopTime /\
       GoTime.Before timeStartTime timeNow && negb (GoTime.Before timeStopTime timeNow) = true /\
       GoStrconv.ParseInt32 (index annotations annotationOriginalReplicas) = Ok o /\
       replicas <> int32 o) /\
  (cronjobAction = Suspend <->
     exists timeNow timeStartTime timeStopTime,
       window w annotations = WindowAt timeNow timeStartTime timeStopTime /\
       GoTime.Before timeStopTime timeNow || GoTime.After timeStartTime timeNow = true /\
       suspend = false) /\
  (cronjobAction = Resume <->
     exists timeNow timeStartTime timeStopTime,
       window w annotations = WindowAt timeNow timeStartTime timeStopTime /\
       GoTime.Before timeStartTime timeNow && negb (GoTime.Before timeStopTime timeNow) = true /\
       suspend = true).
Proof.
  cbv zeta.
  rewrite getDeploymentActionNeeded_window, getCronjobActionNeeded_window.
  destruct (window w annotations) as [err | | n s e].
  - cbn. repeat split; try discriminate; intros (? & ? & ? & H); destruct H as [? H]; try discriminate;
      destruct H; discriminate.
  - cbn. repeat split; try discriminate; intros (? & ? & ? & H); destruct H as [? H]; try discriminate;
      destruct H; discriminate.
  - rewrite decideDeployment_Downscale, decideDeployment_Upscale,
      decideCronjob_Suspend, decideCronjob_Resume.
    unfold downtime, uptime.
    split; [| split; [| split]]; split.
    + intros (Hd & d & HP & Hne). exists n, s, e, d. auto.
    + intros (n' & s' & e' & d & [= <- <- <-] & Hd & HP & Hne). eauto.
    + intros (Hd & d & HP & Hne). exists n, s, e, d. auto.
    + intros (n' & s' & e' & d & [= <- <- <-] & Hd & HP & Hne). eauto.
    + intros (Hd & Hs). exists n, s, e. auto.
    + intros (n' & s' & e' & [= <- <- <-] & Hd & Hs). auto.
    + intros (Hd & Hs). exists n, s, e. auto.
    + intros (n' & s' & e' & [= <- <- <-] & Hd & Hs). auto.
Qed.

(** C7. When the normalised start time is strictly after the normalised
    stop time (an overnight window), the uptime condition is false for
    every current time: the deployment decider returns NoAction or
    Downscale, never Upscale, and the cronjob decider NoAction or Suspend,
    never Resume. *)
Theorem C7_overnight_window_never_up
    w annotations replicas suspend timeNow timeStartTime timeStopTime :
  window w annotations = WindowAt timeNow timeStartTime timeStopTime ->
  GoTime.After timeStartTime timeStopTime = true ->
  uptime timeNow timeStartTime timeStopTime = false /\
  (let a := fst (getDeploymentActionNeeded w annotations replicas) in
   a <> Upscale /\ (a = NoAction \/ a = Downscale)) /\
  (let a := fst (getCronjobActionNeeded w annotations suspend) in
   a <> Resume /\ (a = NoAction \/ a = Suspend)).
Proof.
  intros Hw Hafter.
  assert (Hup : uptime timeNow timeStartTime timeStopTime = false).
  { destruct (uptime timeNow timeStartTime timeStopTime) eqn:E; [| reflexivity].
    apply uptime_spec in E. unfold GoTime.After in Hafter. lia. }
  split; [exact Hup |].
  cbv zeta.
  pose proof (getDeploymentActionNeeded_range w annotations replicas) as Hr.
  pose proof (getCronjobActionNeeded_range w annotations suspend) as Hr'.
  cbv zeta in Hr, Hr'.
  rewrite getDeploymentActionNeeded_window, getCronjobActionNeeded_window, Hw in *.
  assert (H1 : fst (decideDeployment annotations replicas timeNow timeStartTime timeStopTime) <> Upscale).
  { rewrite decideDeployment_Upscale. intros [E _]. congruence. }
  assert (H2 : fst (decideCronjob suspend timeNow timeStartTime timeStopTime) <> Resume).
  { rewrite decideCronjob_Resume. intros [E _]. congruence. }
  split; (split; [assumption | tauto]).
Qed.

Lemma C7_witness :
  window (Sample.wednesday 23 30 0) (Sample.schedule "22:00" "06:00")
    = WindowAt (GoTime.refTime 23 30) (GoTime.refTime 22 0) (GoTime.refTime 6 0) /\
  GoTime.After (GoTime.refTime 22 0) (GoTime.refTime 6 0) = true /\
  fst (getCronjobActionNeeded (Sample.wednesday 23 30 0) (Sample.schedule "22:00" "06:00") true)
    <> Resume.
Proof.
  assert (Hw : window (Sample.wednesday 23 30 0) (Sample.schedule "22:00" "06:00")
    = WindowAt (GoTime.refTime 23 30) (GoTime.refTime 22 0) (GoTime.refTime 6 0))
    by (vm_compute; reflexivity).
  assert (Ha : GoTime.After (GoTime.refTime 22 0) (GoTime.refTime 6 0) = true)
    by (vm_compute; reflexivity).
  split; [exact Hw |]. split; [exact Ha |].
  exact (proj1 (proj2 (proj2 (C7_overnight_window_never_up _ _ 0 true _ _ _ Hw Ha)))).
Defined.

(* ===================================================================== *)
(** * Idempotence and agreement of check and act *)
(* ===================================================================== *)

(** C3. The decision is idempotent in the observed state: during
    downtime a deployment whose replica count equals the parsed
    [d8r/downTimeReplicas] and a cronjob that is already suspended get
    NoAction; during uptime a deployment whose replica count equals the
    parsed [d8r/originalReplicas] and a cronjob that is not suspended get
    NoAction. Nothing is logged in these cases. *)
Theorem C3_no_action_when_state_matches
    w annotations replicas timeNow timeStartTime timeStopTime :
  window w annotations = WindowAt timeNow timeStartTime timeStopTime ->
  (downtime timeNow timeStartTime timeStopTime = true ->
     (forall d, GoStrconv.ParseInt32 (index annotations annotationDownTimeReplicas) = Ok d ->
                replicas = d ->
                getDeploymentActionNeeded w annotations replicas = (NoAction, [])) /\
     getCronjobActionNeeded w annotations true = (NoAction, [])) /\
  (uptime timeNow timeStartTime timeStopTime = true ->
     (forall o, GoStrconv.ParseInt32 (index annotations annotationOriginalReplicas) = Ok o ->
                replicas = o ->
                getDeploymentActionNeeded w annotations replicas = (NoAction, [])) /\
     getCronjobActionNeeded w annotations false = (NoAction, [])).
Proof.
  intros Hw.
  rewrite !getDeploymentActionNeeded_window, !getCronjobActionNeeded_window, Hw.
  split.
  - intros Hd.
    assert (Hup : uptime timeNow timeStartTime timeStopTime = false).
    { destruct (uptime timeNow timeStartTime timeStopTime) eqn:E; [| reflexivity].
      apply uptime_not_downtime in E. congruence. }
    split.
    + intros d HP ->. unfold decideDeployment. rewrite Hd, Hup, HP.
      rewrite (int32_id d) by (eapply ParseInt32_range; eauto).
      rewrite Z.eqb_refl. reflexivity.
    + unfold decideCronjob. rewrite Hd, Hup. reflexivity.
  - intros Hup. pose proof (uptime_not_downtime _ _ _ Hup) as Hd.
    split.
    + intros o HP ->. unfold decideDeployment. rewrite Hd, Hup, HP.
      rewrite (int32_id o) by (eapply ParseInt32_range; eauto).
      rewrite Z.eqb_refl. reflexivity.
    + unfold decideCronjob. rewrite Hd, Hup. reflexivity.
Qed.

Lemma C3_witness :
  window (Sample.wednesday 20 0 0) Sample.nginx
    = WindowAt (GoTime.refTime 20 0) (GoTime.refTime 8 0) (GoTime.refTime 16 0) /\
  downtime (GoTime.refTime 20 0) (GoTime.refTime 8 0) (GoTime.refTime 16 0) = true /\
  GoStrconv.ParseInt32 (index Sample.nginx annotationDownTimeReplicas) = Ok 1 /\
  getDeploymentActionNeeded (Sample.wednesday 20 0 0) Sample.nginx 1 = (NoAction, []).
Proof.
  assert (Hw : window (Sample.wednesday 20 0 0) Sample.nginx
    = WindowAt (GoTime.refTime 20 0) (GoTime.refTime 8 0) (GoTime.refTime 16 0))
    by (vm_compute; reflexivity).
  split; [exact Hw |]. split; [vm_compute; reflexivity |].
  split; [vm_compute; reflexivity |].
  refine (proj1 (proj1 (C3_no_action_when_state_matches _ _ 1 _ _ _ Hw) _) 1 _ _);
    vm_compute; reflexivity.
Defined.

(** C4. With the clock and the zone database fixed, the check and the
    act agree: [isDeploymentActionNeeded] is true exactly when the day gate
    is passed, [d8r/downTimeReplicas] is present and
    [getDeploymentActionNeeded] on the same inputs returns an action other
    than NoAction; the loop body writes exactly when the check is true; and
    both functions depend on the world only through the clock and the zone
    database, so repeated calls give the same answer. *)
Theorem C4_check_and_act_agree w deployment :
  let annotations := Annotations deployment in
  let replicas := Replicas deployment in
  (fst (isDeploymentActionNeeded w annotations replicas) = true <->
     scheduledToday w annotations /\
     is_Some (annotations !! annotationDownTimeReplicas) /\
     fst (getDeploymentActionNeeded w annotations replicas) <> NoAction) /\
  (fst (isDeploymentActionNeeded w annotations replicas) = true <->
     is_Some (fst (checkDeployment w deployment))) /\
  (forall w', Now w' = Now w -> (forall tz, LoadLocation w' tz = LoadLocation w tz) ->
     getDeploymentActionNeeded w' annotations replicas
       = getDeploymentActionNeeded w annotations replicas /\
     isDeploymentActionNeeded w' annotations replicas
       = isDeploymentActionNeeded w annotations replicas).
Proof.
  cbv zeta.
  assert (Hgate : fst (isDeploymentActionNeeded w (Annotations deployment) (Replicas deployment)) = true <->
     scheduledToday w (Annotations deployment) /\
     is_Some (Annotations deployment !! annotationDownTimeReplicas) /\
     fst (getDeploymentActionNeeded w (Annotations deployment) (Replicas deployment)) <> NoAction).
  { rewrite isDeploymentActionNeeded_eq. unfold scheduledToday.
    destruct (Annotations deployment !! annotationDays) as [days |] eqn:Hdays.
    2:{ split; [discriminate | intros [(? & ? & ? & ? & [=] & _) _]]. }
    destruct (Annotations deployment !! annotationTimeZone) as [tz |] eqn:Htz.
    2:{ split; [discriminate | intros [(? & ? & ? & ? & _ & [=] & _) _]]. }
    destruct (ConvertTimeNowToLocal w tz) as [[t today] | err] eqn:Hconv.
    2:{ split; [discriminate | intros [(? & ? & ? & ? & [= <-] & [= <-] & Hc & _) _]; congruence]. }
    destruct (GoStrings.Contains days today) eqn:Hin.
    2:{ split; [discriminate |].
        intros [(? & ? & ? & ? & [= <-] & [= <-] & Hc & Hin') _].
        rewrite Hconv in Hc. injection Hc as <- <-. congruence. }
    destruct (Annotations deployment !! annotationDownTimeReplicas) eqn:Hdtr.
    2:{ split; [discriminate | intros (_ & [? [=]] & _)]. }
    cbn [fst].
    destruct (Z.eqb_spec (fst (getDeploymentActionNeeded w (Annotations deployment)
                                 (Replicas deployment))) NoAction) as [E | NE]; cbn.
    - split; [discriminate | intros (_ & _ & H); contradiction].
    - split; [| reflexivity]. intros _.
      split; [exists days, tz, t, today; auto |]. split; [eauto | exact NE]. }
  split; [exact Hgate |]. split.
  - rewrite checkDeployment_fst. cbv zeta.
    destruct (fst (isDeploymentActionNeeded _ _ _)) eqn:Hneeded.
    + split; [intros _ | reflexivity].
      destruct (proj1 Hgate eq_refl) as (_ & _ & Hne).
      destruct (getDeploymentActionNeeded_range w (Annotations deployment) (Replicas deployment))
        as [E | [E | E]]; cbv zeta in E; [| | contradiction].
      * destruct (getDeploymentActionNeeded_Upscale _ _ _ E) as (o & -> & _).
        rewrite E. cbn. eauto.
      * destruct (getDeploymentActionNeeded_Downscale _ _ _ E) as (d & -> & _).
        rewrite E. cbn. eauto.
    + split; [discriminate | intros [? [=]]].
  - intros w' Hnow Hzones.
    assert (Hconv : forall tz, ConvertTimeNowToLocal w' tz = ConvertTimeNowToLocal w tz).
    { intros tz. unfold ConvertTimeNowToLocal, timeNow. rewrite Hzones, Hnow. reflexivity. }
    assert (Hann : forall t tz, ConvertAnnotationTime w' t tz = ConvertAnnotationTime w t tz).
    { intros t tz. unfold ConvertAnnotationTime, timeNow. rewrite Hzones, Hnow. reflexivity. }
    assert (Hget : forall a r, getDeploymentActionNeeded w' a r = getDeploymentActionNeeded w a r).
    { intros a r. rewrite !getDeploymentActionNeeded_window. unfold window.
      rewrite Hconv. destruct (ConvertTimeNowToLocal w _) as [[? ?] |]; [| reflexivity].
      destruct (a !! annotationStartTime); [| reflexivity].
      destruct (a !! annotationStopTime); [| reflexivity].
      rewrite !Hann. reflexivity. }
    split; [apply Hget |].
    rewrite !isDeploymentActionNeeded_eq.
    destruct (Annotations deployment !! annotationDays); [| reflexivity].
    destruct (Annotations deployment !! annotationTimeZone); [| reflexivity].
    rewrite Hconv, Hget. reflexivity.
Qed.

Lemma C4_witness :
  fst (isDeploymentActionNeeded (Sample.wednesday 20 0 0) Sample.nginx 2) = true /\
  is_Some (fst (checkDeployment (Sample.wednesday 20 0 0) (Sample.deployment Sample.nginx 2))).
Proof.
  assert (H : fst (isDeploymentActionNeeded (Sample.wednesday 20 0 0) Sample.nginx 2) = true)
    by (vm_compute; reflexivity).
  split; [exact H |].
  exact (proj1 (proj1 (proj2 (C4_check_and_act_agree (Sample.wednesday 20 0 0)
                                (Sample.deployment Sample.nginx 2)))) H).
Defined.

(* ===================================================================== *)
(** * Gates and errors *)
(* ===================================================================== *)

(** C5 as stated does not hold: with [d8r/startTime] absent and a
    [d8r/timeZone] that cannot be loaded, the day gate logs the load
    error. *)
Lemma C5_counterexample :
  optedOut Sample.noStart /\
  checkDeployment (Sample.wednesday 20 0 0) (Sample.deployment Sample.noStart 2)
    = (None, [LogError (LocationError "Mars/Olympus")]) /\
  snd (checkDeployment (Sample.wednesday 20 0 0) (Sample.deployment Sample.noStart 2)) <> [].
Proof.
  split; [right; left; vm_compute; reflexivity |].
  split; [vm_compute; reflexivity | vm_compute; discriminate].
Qed.

(** C5, amended. If one of [d8r/days], [d8r/startTime], [d8r/stopTime],
    [d8r/timeZone] is absent, the loop body writes nothing, for deployments
    and cronjobs alike. What it logs is then fixed: when [d8r/days] and
    [d8r/timeZone] are both present and the zone cannot be loaded, exactly
    the one load error; in every other case nothing. *)
Theorem C5_opted_out_resources_are_skipped w deployment cronjob :
  (optedOut (Annotations deployment) ->
     checkDeployment w deployment =
       (None,
        match Annotations deployment !! annotationDays,
              Annotations deployment !! annotationTimeZone with
        | Some _, Some timeZone =>
            match LoadLocation w timeZone with
            | Err err => [LogError err]
            | Ok _ => []
            end
        | _, _ => []
        end)) /\
  (optedOut (JobAnnotations cronjob) ->
     checkCronjob w cronjob =
       (None,
        match JobAnnotations cronjob !! annotationDays,
              JobAnnotations cronjob !! annotationTimeZone with
        | Some _, Some timeZone =>
            match LoadLocation w timeZone with
            | Err err => [LogError err]
            | Ok _ => []
            end
        | _, _ => []
        end)).
Proof.
  split; intros Hout.
  - pose proof (isDeploymentActionNeeded_optedOut w _ (Replicas deployment) Hout) as Hgate.
    rewrite checkDeployment_not_needed; rewrite Hgate; reflexivity.
  - pose proof (isCronjobActionNeeded_optedOut w _ (SuspendFlag cronjob) Hout) as Hgate.
    rewrite checkCronjob_not_needed; rewrite Hgate; reflexivity.
Qed.

Lemma C5_witness :
  let quiet := Sample.deployment (delete annotationStartTime Sample.nginx) 2 in
  let loud := Sample.deployment Sample.noStart 2 in
  optedOut (Annotations quiet) /\
  checkDeployment (Sample.wednesday 20 0 0) quiet = (None, []) /\
  optedOut (Annotations loud) /\
  checkDeployment (Sample.wednesday 20 0 0) loud
    = (None, [LogError (LocationError "Mars/Olympus")]).
Proof.
  cbv zeta.
  assert (Hquiet : optedOut (Annotations
            (Sample.deployment (delete annotationStartTime Sample.nginx) 2)))
    by (right; left; vm_compute; reflexivity).
  assert (Hloud : optedOut (Annotations (Sample.deployment Sample.noStart 2)))
    by (right; left; vm_compute; reflexivity).
  split; [exact Hquiet |]. split.
  - exact (proj1 (C5_opted_out_resources_are_skipped (Sample.wednesday 20 0 0) _
                    (Sample.cronjob ∅ false)) Hquiet).
  - split; [exact Hloud |].
    exact (proj1 (C5_opted_out_resources_are_skipped (Sample.wednesday 20 0 0) _
                    (Sample.cronjob ∅ false)) Hloud).
Defined.

(** C6. Day gate. Today's abbreviation is the first three characters of
    the weekday name of the current time in the zone of the resource.
    When the [d8r/days] text contains it as a substring, anywhere, both
    gates go on to what follows the day test: the deployment gate to the
    test for [d8r/downTimeReplicas] and the decider, the cronjob gate to
    the decider. When the text does not contain it, both gates return
    false and the loop bodies write and log nothing, whatever the replica
    count, the suspend flag or the window. *)
Theorem C6_day_gate w annotations days timeZone loc :
  annotations !! annotationDays = Some days ->
  annotations !! annotationTimeZone = Some timeZone ->
  LoadLocation w timeZone = Ok loc ->
  let today :=
    GoStrings.take 3 (GoTime.WeekdayString (GoTime.Weekday (GoTime.In (timeNow w) loc))) in
  let contained := exists pre post, days = pre +:+ today +:+ post in
  (exists t, ConvertTimeNowToLocal w timeZone = Ok (t, today)) /\
  In today ["Sun"; "Mon"; "Tue"; "Wed"; "Thu"; "Fri"; "Sat"] /\
  (scheduledToday w annotations <-> contained) /\
  (contained ->
     (forall replicas,
        isDeploymentActionNeeded w annotations replicas =
        match annotations !! annotationDownTimeReplicas with
        | Some _ =>
            (negb (fst (getDeploymentActionNeeded w annotations replicas) =? NoAction),
             snd (getDeploymentActionNeeded w annotations replicas))
        | None => (false, [])
        end) /\
     (forall suspend,
        isCronjobActionNeeded w annotations suspend =
        (negb (fst (getCronjobActionNeeded w annotations suspend) =? NoAction),
         snd (getCronjobActionNeeded w annotations suspend)))) /\
  (~ contained ->
     (forall replicas, isDeploymentActionNeeded w annotations replicas = (false, [])) /\
     (forall suspend, isCronjobActionNeeded w annotations suspend = (false, [])) /\
     (forall deployment, Annotations deployment = annotations ->
        checkDeployment w deployment = (None, [])) /\
     (forall cronjob, JobAnnotations cronjob = annotations ->
        checkCronjob w cronjob = (None, []))).
Proof.
  intros Hdays Htz Hloc today contained.
  assert (Hconv : ConvertTimeNowToLocal w timeZone =
                  Ok (GoTime.refTime (GoTime.Hour (GoTime.In (timeNow w) loc))
                        (GoTime.Minute (GoTime.In (timeNow w) loc)), today)).
  { rewrite ConvertTimeNowToLocal_eq, Hloc. reflexivity. }
  assert (Hspec : GoStrings.Contains days today = true <-> contained)
    by apply Contains_spec.
  split; [eauto |]. split; [apply today_abbreviation |]. split; [| split].
  - rewrite <- Hspec. unfold scheduledToday. split.
    + intros (days' & tz' & t & today' & Hd & Ht & Hc & Hin).
      rewrite Hdays in Hd. rewrite Htz in Ht. injection Hd as <-. injection Ht as <-.
      rewrite Hconv in Hc. injection Hc as _ <-. exact Hin.
    + intros Hin. eexists days, timeZone, _, today. eauto.
  - intros Hin. apply Hspec in Hin. split.
    + intros replicas. rewrite isDeploymentActionNeeded_eq, Hdays, Htz, Hconv, Hin.
      reflexivity.
    + intros suspend. rewrite isCronjobActionNeeded_eq, Hdays, Htz, Hconv, Hin.
      reflexivity.
  - intros Hnot.
    assert (Hout : GoStrings.Contains days today = false).
    { destruct (GoStrings.Contains days today); [| reflexivity].
      exfalso. apply Hnot, Hspec. reflexivity. }
    assert (Hdep : forall replicas, isDeploymentActionNeeded w annotations replicas = (false, [])).
    { intros replicas. rewrite isDeploymentActionNeeded_eq, Hdays, Htz, Hconv, Hout. reflexivity. }
    assert (Hjob : forall suspend, isCronjobActionNeeded w annotations suspend = (false, [])).
    { intros suspend. rewrite isCronjobActionNeeded_eq, Hdays, Htz, Hconv, Hout. reflexivity. }
    split; [exact Hdep |]. split; [exact Hjob |]. split.
    + intros deployment <-. rewrite checkDeployment_not_needed; rewrite Hdep; reflexivity.
    + intros cronjob <-. rewrite checkCronjob_not_needed; rewrite Hjob; reflexivity.
Qed.

Lemma C6_witness :
  let monday := Sample.prague 5 20 0 0 in
  let spelled := <[annotationDays := "Monday"]> Sample.nginx in
  spelled !! annotationDays = Some ("" +:+ "Mon" +:+ "day") /\
  LoadLocation monday "Europe/Prague" = Ok (GoTime.FixedZone "CET" 3600) /\
  fst (isDeploymentActionNeeded monday spelled 2) = true /\
  Sample.nginx !! annotationDays = Some "Mon,Tue,Wed,Thu,Fri" /\
  checkDeployment (Sample.saturday 20 0 0) (Sample.deployment Sample.nginx 2) = (None, []).
Proof.
  cbv zeta.
  assert (Hm : <[annotationDays := "Monday"]> Sample.nginx !! annotationDays
               = Some ("" +:+ "Mon" +:+ "day")) by (vm_compute; reflexivity).
  assert (Hmz : <[annotationDays := "Monday"]> Sample.nginx !! annotationTimeZone
                = Some "Europe/Prague") by (vm_compute; reflexivity).
  assert (Hml : LoadLocation (Sample.prague 5 20 0 0) "Europe/Prague"
                = Ok (GoTime.FixedZone "CET" 3600)) by reflexivity.
  assert (Hd : Sample.nginx !! annotationDays = Some "Mon,Tue,Wed,Thu,Fri")
    by (vm_compute; reflexivity).
  assert (Hz : Sample.nginx !! annotationTimeZone = Some "Europe/Prague")
    by (vm_compute; reflexivity).
  assert (Hl : LoadLocation (Sample.saturday 20 0 0) "Europe/Prague"
               = Ok (GoTime.FixedZone "CET" 3600)) by reflexivity.
  split; [exact Hm |]. split; [exact Hml |]. split; [| split; [exact Hd |]].
  - pose proof (C6_day_gate (Sample.prague 5 20 0 0) _ _ _ _ Hm Hmz Hml)
      as (_ & _ & _ & Hpass & _).
    rewrite (proj1 (Hpass (ex_intro _ "" (ex_intro _ "day" eq_refl))) 2).
    vm_compute. reflexivity.
  - pose proof (C6_day_gate (Sample.saturday 20 0 0) Sample.nginx _ _ _ Hd Hz Hl)
      as (_ & _ & _ & _ & Hblock).
    refine (proj1 (proj2 (proj2 (Hblock _))) (Sample.deployment Sample.nginx 2) eq_refl).
    intros Hin. apply Contains_spec in Hin. vm_compute in Hin. discriminate Hin.
Defined.

(** A days annotation spelling the day out still matches its abbreviation. *)
Example days_Monday_matches_Mon :
  GoStrings.Contains "Monday" "Mon" = true /\
  fst (isDeploymentActionNeeded (Sample.prague 5 20 0 0)
         (<[annotationDays := "Monday"]> Sample.nginx) 2) = true.
Proof. split; vm_compute; reflexivity. Qed.

(** C8. When [d8r/downTimeReplicas] during downtime, or
    [d8r/originalReplicas] during uptime, is absent or does not parse
    ([strconv.ParseInt] fails; an absent annotation reads as the empty
    string, see [ParseInt32_absent]), the deployment decider returns
    NoAction and hands that error to the logger, and the loop body writes
    nothing. *)
Theorem C8_unparsable_replicas_no_action
    w deployment timeNow timeStartTime timeStopTime err :
  window w (Annotations deployment) = WindowAt timeNow timeStartTime timeStopTime ->
  (downtime timeNow timeStartTime timeStopTime = true /\
   GoStrconv.ParseInt32 (index (Annotations deployment) annotationDownTimeReplicas) = Err err) \/
  (uptime timeNow timeStartTime timeStopTime = true /\
   GoStrconv.ParseInt32 (index (Annotations deployment) annotationOriginalReplicas) = Err err) ->
  getDeploymentActionNeeded w (Annotations deployment) (Replicas deployment)
    = (NoAction, [LogError err]) /\
  fst (checkDeployment w deployment) = None.
Proof.
  intros Hw Hcase.
  assert (Hget : getDeploymentActionNeeded w (Annotations deployment) (Replicas deployment)
                 = (NoAction, [LogError err])).
  { rewrite getDeploymentActionNeeded_window, Hw. unfold decideDeployment.
    destruct Hcase as [[Hd HP] | [Hup HP]].
    - rewrite Hd, HP. reflexivity.
    - rewrite (uptime_not_downtime _ _ _ Hup), Hup, HP. reflexivity. }
  split; [exact Hget |].
  rewrite checkDeployment_fst. cbv zeta. rewrite Hget. cbn.
  destruct (fst (isDeploymentActionNeeded _ _ _)); reflexivity.
Qed.

Lemma C8_witness :
  let d := Sample.deployment (<[annotationDownTimeReplicas := "abc"]> Sample.nginx) 2 in
  let err := NumError "ParseInt" "abc" ErrSyntax in
  window (Sample.wednesday 20 0 0) (Annotations d)
    = WindowAt (GoTime.refTime 20 0) (GoTime.refTime 8 0) (GoTime.refTime 16 0) /\
  GoStrconv.ParseInt32 (index (Annotations d) annotationDownTimeReplicas) = Err err /\
  getDeploymentActionNeeded (Sample.wednesday 20 0 0) (Annotations d) (Replicas d)
    = (NoAction, [LogError err]) /\
  fst (checkDeployment (Sample.wednesday 20 0 0) d) = None.
Proof.
  cbv zeta.
  assert (Hw : window (Sample.wednesday 20 0 0)
      (Annotations (Sample.deployment (<[annotationDownTimeReplicas := "abc"]> Sample.nginx) 2))
    = WindowAt (GoTime.refTime 20 0) (GoTime.refTime 8 0) (GoTime.refTime 16 0))
    by (vm_compute; reflexivity).
  assert (HP : GoStrconv.ParseInt32
      (index (Annotations (Sample.deployment (<[annotationDownTimeReplicas := "abc"]> Sample.nginx) 2))
         annotationDownTimeReplicas) = Err (NumError "ParseInt" "abc" ErrSyntax))
    by (vm_compute; reflexivity).
  split; [exact Hw |]. split; [exact HP |].
  apply (C8_unparsable_replicas_no_action _ _ _ _ _ _ Hw).
  left. split; [vm_compute; reflexivity | exact HP].
Defined.

(* ===================================================================== *)
(** * Mutation *)
(* ===================================================================== *)

(** C9. Round trip. If one pass downscales a deployment and a later pass
    upscales the object that was written, with nothing else changing it in
    between, the replica count is back at its value before the downscale:
    the downscale records that value in [d8r/originalReplicas] and sets the
    count to the parsed [d8r/downTimeReplicas], the upscale sets it to the
    recorded value. The replica count is an [int32]. *)
Theorem C9_downscale_then_upscale_restores_replicas w1 w2 deployment deployment1 deployment2 :
  - 2 ^ 31 <= Replicas deployment < 2 ^ 31 ->
  fst (getDeploymentActionNeeded w1 (Annotations deployment) (Replicas deployment)) = Downscale ->
  fst (checkDeployment w1 deployment) = Some deployment1 ->
  fst (getDeploymentActionNeeded w2 (Annotations deployment1) (Replicas deployment1)) = Upscale ->
  fst (checkDeployment w2 deployment1) = Some deployment2 ->
  Annotations deployment1 !! annotationOriginalReplicas = Some (GoFmt.d (Replicas deployment)) /\
  GoStrconv.ParseInt32 (index (Annotations deployment) annotationDownTimeReplicas)
    = Ok (Replicas deployment1) /\
  Replicas deployment2 = Replicas deployment.
Proof.
  intros Hrange Hdown H1 Hup H2.
  apply checkDeployment_Some in H1. cbv zeta in H1. rewrite Hdown in H1.
  destruct H1 as [(_ & d & HP & ->) | (E & _)]; [| vm_compute in E; discriminate E].
  apply checkDeployment_Some in H2. cbv zeta in H2. rewrite Hup in H2.
  destruct H2 as [(E & _) | (_ & o & HP' & ->)]; [vm_compute in E; discriminate E |].
  cbn [Annotations Replicas setReplicas setAnnotation] in *.
  rewrite index_insert, ParseInt32_d in HP' by exact Hrange.
  injection HP' as <-.
  split; [apply lookup_insert_eq |]. split; [exact HP | reflexivity].
Qed.

Lemma C9_witness :
  let d := Sample.deployment Sample.nginx 2 in
  let d1 := Sample.deployment Sample.nginxDown 1 in
  let d2 := Sample.deployment Sample.nginxDown 2 in
  fst (checkDeployment (Sample.wednesday 20 0 0) d) = Some d1 /\
  fst (checkDeployment (Sample.thursday 9 0 0) d1) = Some d2 /\
  Replicas d2 = Replicas d.
Proof.
  cbv zeta.
  assert (H1 : fst (checkDeployment (Sample.wednesday 20 0 0) (Sample.deployment Sample.nginx 2))
               = Some (Sample.deployment Sample.nginxDown 1)) by (vm_compute; reflexivity).
  assert (H2 : fst (checkDeployment (Sample.thursday 9 0 0) (Sample.deployment Sample.nginxDown 1))
               = Some (Sample.deployment Sample.nginxDown 2)) by (vm_compute; reflexivity).
  split; [exact H1 |]. split; [exact H2 |].
  refine (proj2 (proj2 (C9_downscale_then_upscale_restores_replicas _ _ _ _ _ _ _ H1 _ H2))).
  - cbn [Replicas Sample.deployment]. lia.
  - vm_compute. reflexivity.
  - vm_compute. reflexivity.
Defined.

(** C10. Frame. What the loop body writes differs from what it read
    only in the decided fields: on Downscale the replica count and the
    [d8r/originalReplicas] annotation (every other annotation, the name,
    the namespace and the labels are as before); on Upscale the replica
    count only, the [d8r/originalReplicas] annotation being kept; on
    NoAction nothing is written. *)
Theorem C10_mutation_touches_only_decided_fields w deployment :
  let actionToDo :=
    fst (getDeploymentActionNeeded w (Annotations deployment) (Replicas deployment)) in
  (forall deployment', fst (checkDeployment w deployment) = Some deployment' ->
     Namespace deployment' = Namespace deployment /\
     Name deployment' = Name deployment /\
     Labels deployment' = Labels deployment /\
     ((actionToDo = Downscale /\
       GoStrconv.ParseInt32 (index (Annotations deployment) annotationDownTimeReplicas)
         = Ok (Replicas deployment') /\
       Annotations deployment' =
         <[annotationOriginalReplicas := GoFmt.d (Replicas deployment)]> (Annotations deployment) /\
       (forall key, key <> annotationOriginalReplicas ->
          Annotations deployment' !! key = Annotations deployment !! key)) \/
      (actionToDo = Upscale /\
       GoStrconv.ParseInt32 (index (Annotations deployment) annotationOriginalReplicas)
         = Ok (Replicas deployment') /\
       Annotations deployment' = Annotations deployment))) /\
  (actionToDo = NoAction -> fst (checkDeployment w deployment) = None).
Proof.
  cbv zeta. split.
  - intros deployment' H. apply checkDeployment_Some in H. cbv zeta in H.
    destruct H as [(E & d & HP & ->) | (E & o & HP & ->)]; cbn.
    + repeat (split; [reflexivity |]). left.
      split; [exact E |]. split; [exact HP |]. split; [reflexivity |].
      intros key Hkey. apply lookup_insert_ne. congruence.
    + repeat (split; [reflexivity |]). right. auto.
  - intros E. rewrite checkDeployment_fst. cbv zeta. rewrite E.
    destruct (fst (isDeploymentActionNeeded _ _ _)); reflexivity.
Qed.

Lemma C10_witness :
  fst (checkDeployment (Sample.wednesday 20 0 0) (Sample.deployment Sample.nginx 2))
    = Some (Sample.deployment Sample.nginxDown 1) /\
  Labels (Sample.deployment Sample.nginxDown 1) = Labels (Sample.deployment Sample.nginx 2) /\
  fst (getDeploymentActionNeeded (Sample.wednesday 12 0 0) Sample.nginxDown 2) = NoAction /\
  fst (checkDeployment (Sample.wednesday 12 0 0) (Sample.deployment Sample.nginxDown 2)) = None.
Proof.
  assert (H1 : fst (checkDeployment (Sample.wednesday 20 0 0) (Sample.deployment Sample.nginx 2))
               = Some (Sample.deployment Sample.nginxDown 1)) by (vm_compute; reflexivity).
  assert (H2 : fst (getDeploymentActionNeeded (Sample.wednesday 12 0 0) Sample.nginxDown 2)
               = NoAction) by (vm_compute; reflexivity).
  split; [exact H1 |]. split; [| split; [exact H2 |]].
  - exact (proj1 (proj2 (proj2 (proj1
      (C10_mutation_touches_only_decided_fields _ _) _ H1)))).
  - exact (proj2 (C10_mutation_touches_only_decided_fields (Sample.wednesday 12 0 0)
                    (Sample.deployment Sample.nginxDown 2)) H2).
Defined.

(* ===================================================================== *)
(** * The normalised time *)
(* ===================================================================== *)

Lemma refTime_Hour h m :
  0 <= h < 24 -> 0 <= m < 60 -> GoTime.Hour (GoTime.refTime h m) = h.
Proof.
  intros Hh Hm. unfold GoTime.Hour, GoTime.abs, GoTime.Zone, GoTime.refTime, GoTime.refEpoch.
  cbn [GoTime.unixSec GoTime.loc GoTime.lookup GoTime.UTC snd].
  replace (-62167219200 + h * 3600 + m * 60 + 0)
    with (h * 3600 + m * 60 + (-719528) * 86400) by lia.
  rewrite Z_mod_plus_full, Z.mod_small by lia.
  symmetry. apply (Z.div_unique _ 3600 h (m * 60)); lia.
Qed.

Lemma refTime_Minute h m :
  0 <= h < 24 -> 0 <= m < 60 -> GoTime.Minute (GoTime.refTime h m) = m.
Proof.
  intros Hh Hm. unfold GoTime.Minute, GoTime.abs, GoTime.Zone, GoTime.refTime, GoTime.refEpoch.
  cbn [GoTime.unixSec GoTime.loc GoTime.lookup GoTime.UTC snd].
  replace (-62167219200 + h * 3600 + m * 60 + 0)
    with (m * 60 + (h - 17268672) * 3600) by lia.
  rewrite Z_mod_plus_full, Z.mod_small by lia.
  symmetry. apply (Z.div_unique _ 60 m 0); lia.
Qed.

(** X1. [getRidOfDate] never fails: it returns the instant of the
    reference day with the hour and minute that [t] shows in its own
    location, seconds dropped, and applied to its own result it returns
    that result again. *)
Theorem getRidOfDate_normalises t :
  exists r,
    getRidOfDate t = Ok r /\
    GoTime.Hour r = GoTime.Hour t /\
    GoTime.Minute r = GoTime.Minute t /\
    GoTime.unixSec r = GoTime.refEpoch + 60 * minuteOfDay t /\
    getRidOfDate r = Ok r.
Proof.
  pose proof (Hour_range t) as Hh. pose proof (Minute_range t) as Hm.
  exists (GoTime.refTime (GoTime.Hour t) (GoTime.Minute t)).
  split; [apply getRidOfDate_total |].
  split; [apply refTime_Hour; assumption |].
  split; [apply refTime_Minute; assumption |].
  split; [unfold minuteOfDay; cbn; lia |].
  rewrite getRidOfDate_total, refTime_Hour, refTime_Minute by assumption. reflexivity.
Qed.

(** X2. The order of two normalised times is the order of their minutes
    of the day: times within the same minute are neither before nor after
    one another. *)
Theorem normalised_order_is_minute_order a b ra rb :
  getRidOfDate a = Ok ra -> getRidOfDate b = Ok rb ->
  (GoTime.Before ra rb = true <-> minuteOfDay a < minuteOfDay b) /\
  (GoTime.After ra rb = true <-> minuteOfDay b < minuteOfDay a) /\
  (minuteOfDay a = minuteOfDay b ->
     GoTime.Before ra rb = false /\ GoTime.After ra rb = false).
Proof.
  rewrite !getRidOfDate_total. intros [= <-] [= <-].
  unfold GoTime.Before, GoTime.After, minuteOfDay, GoTime.refTime. cbn [GoTime.unixSec].
  rewrite !Z.ltb_lt. split; [lia |]. split; [lia |].
  intros E. rewrite !Z.ltb_ge. lia.
Qed.

Lemma normalised_order_witness :
  let a := GoTime.In (timeNow (Sample.wednesday 8 0 59)) (GoTime.FixedZone "CET" 3600) in
  let b := GoTime.In (timeNow (Sample.wednesday 8 0 0)) (GoTime.FixedZone "CET" 3600) in
  getRidOfDate a = Ok (GoTime.refTime 8 0) /\
  getRidOfDate b = Ok (GoTime.refTime 8 0) /\
  GoTime.Before (GoTime.refTime 8 0) (GoTime.refTime 8 0) = false.
Proof.
  cbv zeta.
  assert (Ha : getRidOfDate (GoTime.In (timeNow (Sample.wednesday 8 0 59))
                 (GoTime.FixedZone "CET" 3600)) = Ok (GoTime.refTime 8 0))
    by (vm_compute; reflexivity).
  assert (Hb : getRidOfDate (GoTime.In (timeNow (Sample.wednesday 8 0 0))
                 (GoTime.FixedZone "CET" 3600)) = Ok (GoTime.refTime 8 0))
    by (vm_compute; reflexivity).
  split; [exact Ha |]. split; [exact Hb |].
  apply (proj2 (proj2 (normalised_order_is_minute_order _ _ _ _ Ha Hb))).
  vm_compute. reflexivity.
Defined.

(* ===================================================================== *)
(** * The deciders, by cases *)
(* ===================================================================== *)

Lemma getCronjobActionNeeded_at w annotations suspend n s e :
  window w annotations = WindowAt n s e ->
  getCronjobActionNeeded w annotations suspend =
  (if downtime n s e then (if suspend then NoAction else Suspend)
   else if uptime n s e then (if suspend then Resume else NoAction)
   else NoAction, []).
Proof.
  intros Hw. rewrite getCronjobActionNeeded_window, Hw. unfold decideCronjob.
  pose proof (uptime_not_downtime n s e) as Hex.
  destruct (downtime n s e), (uptime n s e), suspend; try reflexivity;
    discriminate (Hex eq_refl).
Qed.

Lemma getDeploymentActionNeeded_Downscale_window w annotations replicas :
  fst (getDeploymentActionNeeded w annotations replicas) = Downscale ->
  exists n s e d,
    window w annotations = WindowAt n s e /\ downtime n s e = true /\
    GoStrconv.ParseInt32 (index annotations annotationDownTimeReplicas) = Ok d /\
    replicas <> d.
Proof.
  rewrite getDeploymentActionNeeded_window.
  destruct (window w annotations) as [| | n s e]; try discriminate.
  rewrite decideDeployment_Downscale. intros (Hd & d & HP & Hne).
  exists n, s, e, d. rewrite (int32_id d) in Hne by (eapply ParseInt32_range; eauto). auto.
Qed.

Lemma getDeploymentActionNeeded_Upscale_window w annotations replicas :
  fst (getDeploymentActionNeeded w annotations replicas) = Upscale ->
  exists n s e o,
    window w annotations = WindowAt n s e /\ uptime n s e = true /\
    GoStrconv.ParseInt32 (index annotations annotationOriginalReplicas) = Ok o /\
    replicas <> o.
Proof.
  rewrite getDeploymentActionNeeded_window.
  destruct (window w annotations) as [| | n s e]; try discriminate.
  rewrite decideDeployment_Upscale. intros (Hu & o & HP & Hne).
  exists n, s, e, o. rewrite (int32_id o) in Hne by (eapply ParseInt32_range; eauto). auto.
Qed.

(** A deployment already at the count its window asks for is left alone. *)
Lemma getDeploymentActionNeeded_settled w annotations n s e v :
  window w annotations = WindowAt n s e ->
  (downtime n s e = true /\
   GoStrconv.ParseInt32 (index annotations annotationDownTimeReplicas) = Ok v) \/
  (uptime n s e = true /\
   GoStrconv.ParseInt32 (index annotations annotationOriginalReplicas) = Ok v) ->
  getDeploymentActionNeeded w annotations v = (NoAction, []).
Proof.
  intros Hw Hcase. rewrite getDeploymentActionNeeded_window, Hw. unfold decideDeployment.
  destruct Hcase as [[Hd HP] | [Hu HP]].
  - assert (Hu : uptime n s e = false).
    { destruct (uptime n s e) eqn:E; [| reflexivity].
      apply uptime_not_downtime in E. congruence. }
    rewrite Hd, Hu, HP, (int32_id v) by (eapply ParseInt32_range; eauto).
    rewrite Z.eqb_refl. reflexivity.
  - rewrite (uptime_not_downtime _ _ _ Hu), Hu, HP, (int32_id v)
      by (eapply ParseInt32_range; eauto).
    rewrite Z.eqb_refl. reflexivity.
Qed.

Lemma checkDeployment_NoAction w deployment :
  fst (getDeploymentActionNeeded w (Annotations deployment) (Replicas deployment)) = NoAction ->
  fst (checkDeployment w deployment) = None.
Proof.
  intros E. rewrite checkDeployment_fst. cbv zeta. rewrite E.
  destruct (fst (isDeploymentActionNeeded _ _ _)); reflexivity.
Qed.

Lemma checkCronjob_NoAction w cronjob :
  fst (getCronjobActionNeeded w (JobAnnotations cronjob) (SuspendFlag cronjob)) = NoAction ->
  fst (checkCronjob w cronjob) = None.
Proof.
  intros E. rewrite checkCronjob_fst. cbv zeta. rewrite E.
  destruct (fst (isCronjobActionNeeded _ _ _)); reflexivity.
Qed.

(** The window does not read [d8r/originalReplicas]. *)
Lemma window_insert_originalReplicas w annotations value :
  window w (<[annotationOriginalReplicas := value]> annotations) = window w annotations.
Proof.
  unfold window, index.
  rewrite !lookup_insert_ne by discriminate. reflexivity.
Qed.

(** X3. With start not after stop, the cronjob decider returns NoAction
    for a running and for a suspended job alike exactly when now equals the
    start time: at every other instant one of the two states is acted
    on. *)
Theorem decider_gap_is_the_start_instant w annotations n s e :
  window w annotations = WindowAt n s e ->
  (fst (getCronjobActionNeeded w annotations false) = NoAction /\
   fst (getCronjobActionNeeded w annotations true) = NoAction) <->
  (GoTime.unixSec n = GoTime.unixSec s /\ GoTime.unixSec s <= GoTime.unixSec e).
Proof.
  intros Hw. rewrite !(getCronjobActionNeeded_at _ _ _ _ _ _ Hw). cbn [fst].
  destruct (downtime n s e) eqn:Hd.
  - split; [intros [E _]; discriminate E |].
    intros [H1 H2]. apply downtime_spec in Hd. lia.
  - destruct (uptime n s e) eqn:Hu.
    + split; [intros [_ E]; discriminate E |].
      intros [H1 H2]. apply uptime_spec in Hu. lia.
    + split; [intros _ | auto].
      unfold downtime, uptime, GoTime.Before, GoTime.After in Hd, Hu.
      destruct (Z.ltb_spec (GoTime.unixSec e) (GoTime.unixSec n)); [discriminate Hd |].
      destruct (Z.ltb_spec (GoTime.unixSec n) (GoTime.unixSec s)); [discriminate Hd |].
      destruct (Z.ltb_spec (GoTime.unixSec s) (GoTime.unixSec n)); [discriminate Hu |].
      lia.
Qed.

Lemma decider_gap_witness :
  window (Sample.wednesday 8 0 0) (Sample.schedule "08:00" "16:00")
    = WindowAt (GoTime.refTime 8 0) (GoTime.refTime 8 0) (GoTime.refTime 16 0) /\
  fst (getCronjobActionNeeded (Sample.wednesday 8 0 0) (Sample.schedule "08:00" "16:00") true)
    = NoAction.
Proof.
  assert (Hw : window (Sample.wednesday 8 0 0) (Sample.schedule "08:00" "16:00")
    = WindowAt (GoTime.refTime 8 0) (GoTime.refTime 8 0) (GoTime.refTime 16 0))
    by (vm_compute; reflexivity).
  split; [exact Hw |].
  apply (proj2 (decider_gap_is_the_start_instant _ _ _ _ _ Hw)).
  split; [reflexivity | vm_compute; discriminate].
Defined.

(** X4. When start is after stop, every instant is downtime: a cronjob is
    suspended unless it already is, and a deployment with a parsable
    [d8r/downTimeReplicas] is downscaled unless it is already at that
    count. *)
Theorem overnight_window_is_always_down w annotations replicas n s e :
  window w annotations = WindowAt n s e ->
  GoTime.After s e = true ->
  downtime n s e = true /\
  (forall suspend,
     getCronjobActionNeeded w annotations suspend
       = (if suspend then NoAction else Suspend, [])) /\
  (forall d, GoStrconv.ParseInt32 (index annotations annotationDownTimeReplicas) = Ok d ->
     getDeploymentActionNeeded w annotations replicas
       = (if replicas =? d then NoAction else Downscale, [])).
Proof.
  intros Hw Hafter.
  assert (Hd : downtime n s e = true).
  { apply downtime_spec. unfold GoTime.After in Hafter. lia. }
  assert (Hu : uptime n s e = false).
  { destruct (uptime n s e) eqn:E; [| reflexivity].
    apply uptime_not_downtime in E. congruence. }
  split; [exact Hd |]. split.
  - intros suspend. rewrite (getCronjobActionNeeded_at _ _ _ _ _ _ Hw), Hd. reflexivity.
  - intros d HP. rewrite getDeploymentActionNeeded_window, Hw. unfold decideDeployment.
    rewrite Hd, Hu, HP, (int32_id d) by (eapply ParseInt32_range; eauto).
    destruct (replicas =? d); reflexivity.
Qed.

Lemma overnight_window_witness :
  window (Sample.wednesday 23 30 0) (Sample.schedule "22:00" "06:00")
    = WindowAt (GoTime.refTime 23 30) (GoTime.refTime 22 0) (GoTime.refTime 6 0) /\
  GoTime.After (GoTime.refTime 22 0) (GoTime.refTime 6 0) = true /\
  getCronjobActionNeeded (Sample.wednesday 23 30 0) (Sample.schedule "22:00" "06:00") false
    = (Suspend, []).
Proof.
  assert (Hw : window (Sample.wednesday 23 30 0) (Sample.schedule "22:00" "06:00")
    = WindowAt (GoTime.refTime 23 30) (GoTime.refTime 22 0) (GoTime.refTime 6 0))
    by (vm_compute; reflexivity).
  assert (Ha : GoTime.After (GoTime.refTime 22 0) (GoTime.refTime 6 0) = true)
    by (vm_compute; reflexivity).
  split; [exact Hw |]. split; [exact Ha |].
  exact (proj1 (proj2 (overnight_window_is_always_down _ _ 0 _ _ _ Hw Ha)) false).
Defined.

(* ===================================================================== *)
(** * Cronjobs: check, act and write *)
(* ===================================================================== *)

(** X5. For a pass in which the check and the act read the same clock
    value and zone database (one [World]): [isCronjobActionNeeded] is true
    exactly when the day gate is passed and [getCronjobActionNeeded]
    returns an action other than NoAction, and the loop body of
    [checkCronjobs] writes exactly then. Unlike for deployments, no
    further annotation is required. *)
Theorem cronjob_check_and_act_agree w cronjob :
  let annotations := JobAnnotations cronjob in
  let suspend := SuspendFlag cronjob in
  (fst (isCronjobActionNeeded w annotations suspend) = true <->
     scheduledToday w annotations /\
     fst (getCronjobActionNeeded w annotations suspend) <> NoAction) /\
  (fst (isCronjobActionNeeded w annotations suspend) = true <->
     is_Some (fst (checkCronjob w cronjob))).
Proof.
  cbv zeta.
  assert (Hgate : fst (isCronjobActionNeeded w (JobAnnotations cronjob) (SuspendFlag cronjob)) = true <->
     scheduledToday w (JobAnnotations cronjob) /\
     fst (getCronjobActionNeeded w (JobAnnotations cronjob) (SuspendFlag cronjob)) <> NoAction).
  { rewrite isCronjobActionNeeded_eq. unfold scheduledToday.
    destruct (JobAnnotations cronjob !! annotationDays) as [days |] eqn:Hdays.
    2:{ split; [discriminate | intros [(? & ? & ? & ? & [=] & _) _]]. }
    destruct (JobAnnotations cronjob !! annotationTimeZone) as [tz |] eqn:Htz.
    2:{ split; [discriminate | intros [(? & ? & ? & ? & _ & [=] & _) _]]. }
    destruct (ConvertTimeNowToLocal w tz) as [[t today] | err] eqn:Hconv.
    2:{ split; [discriminate | intros [(? & ? & ? & ? & [= <-] & [= <-] & Hc & _) _]; congruence]. }
    destruct (GoStrings.Contains days today) eqn:Hin.
    2:{ split; [discriminate |].
        intros [(? & ? & ? & ? & [= <-] & [= <-] & Hc & Hin') _].
        rewrite Hconv in Hc. injection Hc as <- <-. congruence. }
    cbn [fst].
    destruct (Z.eqb_spec (fst (getCronjobActionNeeded w (JobAnnotations cronjob)
                                 (SuspendFlag cronjob))) NoAction) as [E | NE]; cbn.
    - split; [discriminate | intros (_ & H); contradiction].
    - split; [| reflexivity]. intros _.
      split; [exists days, tz, t, today; auto | exact NE]. }
  split; [exact Hgate |].
  rewrite checkCronjob_fst. cbv zeta.
  destruct (fst (isCronjobActionNeeded _ _ _)) eqn:Hneeded.
  - split; [intros _ | reflexivity].
    destruct (proj1 Hgate eq_refl) as (_ & Hne).
    destruct (getCronjobActionNeeded_range w (JobAnnotations cronjob) (SuspendFlag cronjob))
      as [E | [E | E]]; cbv zeta in E; [| | contradiction]; rewrite E; cbn; eauto.
  - split; [discriminate | intros [? [=]]].
Qed.

Lemma cronjob_check_and_act_witness :
  fst (isCronjobActionNeeded (Sample.wednesday 20 0 0) (Sample.schedule "08:00" "16:00") false)
    = true /\
  is_Some (fst (checkCronjob (Sample.wednesday 20 0 0)
                  (Sample.cronjob (Sample.schedule "08:00" "16:00") false))).
Proof.
  assert (H : fst (isCronjobActionNeeded (Sample.wednesday 20 0 0)
                     (Sample.schedule "08:00" "16:00") false) = true)
    by (vm_compute; reflexivity).
  split; [exact H |].
  exact (proj1 (proj2 (cronjob_check_and_act_agree (Sample.wednesday 20 0 0)
                          (Sample.cronjob (Sample.schedule "08:00" "16:00") false))) H).
Defined.

(** What [checkCronjob] writes, by the action decided. *)
Lemma checkCronjob_Some w cronjob cronjob' :
  fst (checkCronjob w cronjob) = Some cronjob' ->
  exists n s e,
    window w (JobAnnotations cronjob) = WindowAt n s e /\
    ((downtime n s e = true /\ SuspendFlag cronjob = false /\
      cronjob' = setSuspend cronjob true) \/
     (uptime n s e = true /\ SuspendFlag cronjob = true /\
      cronjob' = setSuspend cronjob false)).
Proof.
  rewrite checkCronjob_fst. cbv zeta.
  destruct (fst (isCronjobActionNeeded _ _ _)); [| discriminate].
  rewrite getCronjobActionNeeded_window.
  destruct (window w (JobAnnotations cronjob)) as [| | n s e]; try discriminate.
  destruct (Z.eqb_spec (fst (decideCronjob (SuspendFlag cronjob) n s e)) Suspend) as [E | NE].
  - intros [= <-]. apply decideCronjob_Suspend in E. exists n, s, e. split; [reflexivity |].
    left. tauto.
  - destruct (Z.eqb_spec (fst (decideCronjob (SuspendFlag cronjob) n s e)) Resume) as [E | NE'];
      [| discriminate].
    intros [= <-]. apply decideCronjob_Resume in E. exists n, s, e. split; [reflexivity |].
    right. tauto.
Qed.

(** X6. What [checkCronjobs] writes is the object it read with the
    suspend flag negated and nothing else changed; the action decided is
    Suspend for a running job and Resume for a suspended one. *)
Theorem checkCronjob_flips_the_flag w cronjob cronjob' :
  fst (checkCronjob w cronjob) = Some cronjob' ->
  SuspendFlag cronjob' = negb (SuspendFlag cronjob) /\
  JobAnnotations cronjob' = JobAnnotations cronjob /\
  JobLabels cronjob' = JobLabels cronjob /\
  JobName cronjob' = JobName cronjob /\
  JobNamespace cronjob' = JobNamespace cronjob /\
  fst (getCronjobActionNeeded w (JobAnnotations cronjob) (SuspendFlag cronjob))
    = (if SuspendFlag cronjob then Resume else Suspend).
Proof.
  intros H. destruct (checkCronjob_Some _ _ _ H) as (n & s & e & Hw & Hcase).
  rewrite (getCronjobActionNeeded_at _ _ _ _ _ _ Hw).
  destruct Hcase as [(Hd & Hs & ->) | (Hu & Hs & ->)]; rewrite Hs; cbn.
  - rewrite Hd. auto 10.
  - rewrite (uptime_not_downtime _ _ _ Hu), Hu. auto 10.
Qed.

Lemma checkCronjob_flips_witness :
  let job := Sample.cronjob (Sample.schedule "08:00" "16:00") false in
  fst (checkCronjob (Sample.wednesday 20 0 0) job) = Some (setSuspend job true) /\
  SuspendFlag (setSuspend job true) = negb (SuspendFlag job).
Proof.
  cbv zeta.
  assert (H : fst (checkCronjob (Sample.wednesday 20 0 0)
                     (Sample.cronjob (Sample.schedule "08:00" "16:00") false))
              = Some (setSuspend (Sample.cronjob (Sample.schedule "08:00" "16:00") false) true))
    by (vm_compute; reflexivity).
  split; [exact H |].
  exact (proj1 (checkCronjob_flips_the_flag _ _ _ H)).
Defined.

(* ===================================================================== *)
(** * Writes change the state and then settle *)
(* ===================================================================== *)

(** X7. Every object [checkDeployments] writes has a replica count
    different from the one read, and that count is an [int32]. *)
Theorem checkDeployment_write_changes_replicas w deployment deployment' :
  fst (checkDeployment w deployment) = Some deployment' ->
  Replicas deployment' <> Replicas deployment /\
  - 2 ^ 31 <= Replicas deployment' < 2 ^ 31.
Proof.
  intros H. apply checkDeployment_Some in H. cbv zeta in H.
  destruct H as [(E & d & HP & ->) | (E & o & HP & ->)]; cbn [Replicas setReplicas].
  - destruct (getDeploymentActionNeeded_Downscale_window _ _ _ E) as (_ & _ & _ & d' & _ & _ & HP' & Hne).
    rewrite HP in HP'. injection HP' as <-.
    split; [congruence | eapply ParseInt32_range; eauto].
  - destruct (getDeploymentActionNeeded_Upscale_window _ _ _ E) as (_ & _ & _ & o' & _ & _ & HP' & Hne).
    rewrite HP in HP'. injection HP' as <-.
    split; [congruence | eapply ParseInt32_range; eauto].
Qed.

Lemma checkDeployment_write_witness :
  fst (checkDeployment (Sample.wednesday 20 0 0) (Sample.deployment Sample.nginx 2))
    = Some (Sample.deployment Sample.nginxDown 1) /\
  Replicas (Sample.deployment Sample.nginxDown 1) <> Replicas (Sample.deployment Sample.nginx 2).
Proof.
  assert (H : fst (checkDeployment (Sample.wednesday 20 0 0) (Sample.deployment Sample.nginx 2))
              = Some (Sample.deployment Sample.nginxDown 1)) by (vm_compute; reflexivity).
  split; [exact H |].
  exact (proj1 (checkDeployment_write_changes_replicas _ _ _ H)).
Defined.

Lemma written_deployment_settled w deployment deployment' :
  fst (checkDeployment w deployment) = Some deployment' ->
  getDeploymentActionNeeded w (Annotations deployment') (Replicas deployment') = (NoAction, []).
Proof.
  intros H. apply checkDeployment_Some in H. cbv zeta in H.
  destruct H as [(E & d & HP & ->) | (E & o & HP & ->)];
    cbn [Replicas Annotations setReplicas setAnnotation].
  - destruct (getDeploymentActionNeeded_Downscale_window _ _ _ E)
      as (n & s & e & d' & Hw & Hd & _ & _).
    apply (getDeploymentActionNeeded_settled _ _ n s e).
    + rewrite window_insert_originalReplicas. exact Hw.
    + left. split; [exact Hd |]. unfold index in *.
      rewrite lookup_insert_ne by discriminate. exact HP.
  - destruct (getDeploymentActionNeeded_Upscale_window _ _ _ E)
      as (n & s & e & o' & Hw & Hu & _ & _).
    apply (getDeploymentActionNeeded_settled _ _ n s e _ Hw). right. auto.
Qed.

Lemma written_cronjob_settled w cronjob cronjob' :
  fst (checkCronjob w cronjob) = Some cronjob' ->
  getCronjobActionNeeded w (JobAnnotations cronjob') (SuspendFlag cronjob') = (NoAction, []).
Proof.
  intros H. destruct (checkCronjob_Some _ _ _ H) as (n & s & e & Hw & Hcase).
  destruct Hcase as [(Hd & Hs & ->) | (Hu & Hs & ->)];
    cbn [JobAnnotations SuspendFlag setSuspend];
    rewrite (getCronjobActionNeeded_at _ _ _ _ _ _ Hw).
  - rewrite Hd. reflexivity.
  - rewrite (uptime_not_downtime _ _ _ Hu), Hu. reflexivity.
Qed.

(** X8. After a write, a second pass at the same instant over the
    written deployment decides NoAction, logs nothing and writes
    nothing. *)
Theorem checkDeployment_settles w deployment deployment' :
  fst (checkDeployment w deployment) = Some deployment' ->
  getDeploymentActionNeeded w (Annotations deployment') (Replicas deployment') = (NoAction, []) /\
  fst (checkDeployment w deployment') = None.
Proof.
  intros H. pose proof (written_deployment_settled _ _ _ H) as Hget.
  split; [exact Hget |]. apply checkDeployment_NoAction. rewrite Hget. reflexivity.
Qed.

Lemma checkDeployment_settles_witness :
  fst (checkDeployment (Sample.wednesday 20 0 0) (Sample.deployment Sample.nginx 2))
    = Some (Sample.deployment Sample.nginxDown 1) /\
  fst (checkDeployment (Sample.wednesday 20 0 0) (Sample.deployment Sample.nginxDown 1)) = None.
Proof.
  assert (H : fst (checkDeployment (Sample.wednesday 20 0 0) (Sample.deployment Sample.nginx 2))
              = Some (Sample.deployment Sample.nginxDown 1)) by (vm_compute; reflexivity).
  split; [exact H |].
  exact (proj2 (checkDeployment_settles _ _ _ H)).
Defined.

(** X9. After a write, a second pass at the same instant over the
    written cronjob decides NoAction, logs nothing and writes nothing. *)
Theorem checkCronjob_settles w cronjob cronjob' :
  fst (checkCronjob w cronjob) = Some cronjob' ->
  getCronjobActionNeeded w (JobAnnotations cronjob') (SuspendFlag cronjob') = (NoAction, []) /\
  fst (checkCronjob w cronjob') = None.
Proof.
  intros H. pose proof (written_cronjob_settled _ _ _ H) as Hget.
  split; [exact Hget |]. apply checkCronjob_NoAction. rewrite Hget. reflexivity.
Qed.

Lemma checkCronjob_settles_witness :
  let job := Sample.cronjob (Sample.schedule "08:00" "16:00") false in
  fst (checkCronjob (Sample.wednesday 20 0 0) job) = Some (setSuspend job true) /\
  fst (checkCronjob (Sample.wednesday 20 0 0) (setSuspend job true)) = None.
Proof.
  cbv zeta.
  assert (H : fst (checkCronjob (Sample.wednesday 20 0 0)
                     (Sample.cronjob (Sample.schedule "08:00" "16:00") false))
              = Some (setSuspend (Sample.cronjob (Sample.schedule "08:00" "16:00") false) true))
    by (vm_compute; reflexivity).
  split; [exact H |].
  exact (proj2 (checkCronjob_settles _ _ _ H)).
Defined.

(* ===================================================================== *)
(** * What a pass logs *)
(* ===================================================================== *)

Lemma getDeploymentActionNeeded_log w annotations replicas :
  let r := getDeploymentActionNeeded w annotations replicas in
  snd r = [] \/ (fst r = NoAction /\ exists err, snd r = [LogError err]).
Proof.
  cbv zeta. rewrite getDeploymentActionNeeded_window.
  destruct (window w annotations) as [err | | n s e]; cbn; eauto.
  unfold decideDeployment, logNoAction.
  repeat match goal with
  | |- context [if ?b then _ else _] => destruct b
  | |- context [match ?r with Ok _ => _ | Err _ => _ end] => destruct r
  end; cbn; eauto.
Qed.

Lemma getCronjobActionNeeded_log w annotations suspend :
  let r := getCronjobActionNeeded w annotations suspend in
  snd r = [] \/ (fst r = NoAction /\ exists err, snd r = [LogError err]).
Proof.
  cbv zeta. rewrite getCronjobActionNeeded_window.
  destruct (window w annotations) as [err | | n s e]; cbn; eauto.
  unfold decideCronjob.
  repeat match goal with
  | |- context [if ?b then _ else _] => destruct b
  end; cbn; eauto.
Qed.

Lemma isDeploymentActionNeeded_log w annotations replicas :
  let r := isDeploymentActionNeeded w annotations replicas in
  (fst r = true /\ snd r = [] /\
   snd (getDeploymentActionNeeded w annotations replicas) = [] /\
   fst (getDeploymentActionNeeded w annotations replicas) <> NoAction) \/
  (fst r = false /\ (snd r = [] \/ exists err, snd r = [LogError err])).
Proof.
  cbv zeta. rewrite isDeploymentActionNeeded_eq.
  destruct (annotations !! annotationDays); [| cbn; auto].
  destruct (annotations !! annotationTimeZone); [| cbn; auto].
  destruct (ConvertTimeNowToLocal w _) as [[? today] | err]; [| cbn; eauto].
  destruct (GoStrings.Contains _ _); [| cbn; auto].
  destruct (annotations !! annotationDownTimeReplicas); [| cbn; auto].
  cbv zeta. cbn [fst snd].
  destruct (getDeploymentActionNeeded_log w annotations replicas) as [Hl | (Ha & err & Hl)];
    cbv zeta in *.
  - destruct (Z.eqb_spec (fst (getDeploymentActionNeeded w annotations replicas)) NoAction);
      cbn; auto.
  - rewrite Ha, Hl. cbn. eauto.
Qed.

Lemma isCronjobActionNeeded_log w annotations suspend :
  let r := isCronjobActionNeeded w annotations suspend in
  (fst r = true /\ snd r = [] /\
   snd (getCronjobActionNeeded w annotations suspend) = [] /\
   fst (getCronjobActionNeeded w annotations suspend) <> NoAction) \/
  (fst r = false /\ (snd r = [] \/ exists err, snd r = [LogError err])).
Proof.
  cbv zeta. rewrite isCronjobActionNeeded_eq.
  destruct (annotations !! annotationDays); [| cbn; auto].
  destruct (annotations !! annotationTimeZone); [| cbn; auto].
  destruct (ConvertTimeNowToLocal w _) as [[? today] | err]; [| cbn; eauto].
  destruct (GoStrings.Contains _ _); [| cbn; auto].
  cbv zeta. cbn [fst snd].
  destruct (getCronjobActionNeeded_log w annotations suspend) as [Hl | (Ha & err & Hl)];
    cbv zeta in *.
  - destruct (Z.eqb_spec (fst (getCronjobActionNeeded w annotations suspend)) NoAction);
      cbn; auto.
  - rewrite Ha, Hl. cbn. eauto.
Qed.

(** X10. The lines of one pass over one object, for a pass in which the
    check and the act read the same clock value and zone database (one
    [World]). When it writes: one action line, naming "upscale" or
    "downscale" ("suspend" or "resume" for a cronjob), followed by the
    error of the Update call if there is one. When it does not write:
    nothing, or a single error line. *)
Theorem pass_log_shape w deployment cronjob :
  match fst (checkDeployment w deployment) with
  | Some deployment' =>
      exists action, (action = "upscale" \/ action = "downscale") /\
        snd (checkDeployment w deployment) =
          LogDeployment (Namespace deployment) (Name deployment) (Replicas deployment) action
          :: match UpdateDeployment w deployment' with
             | Some err => [LogError err]
             | None => []
             end
  | None =>
      snd (checkDeployment w deployment) = [] \/
      exists err, snd (checkDeployment w deployment) = [LogError err]
  end /\
  match fst (checkCronjob w cronjob) with
  | Some cronjob' =>
      exists action, (action = "suspend" \/ action = "resume") /\
        snd (checkCronjob w cronjob) =
          LogCronjob (JobNamespace cronjob) (JobName cronjob) action
          :: match UpdateCronJob w cronjob' with
             | Some err => [LogError err]
             | None => []
             end
  | None =>
      snd (checkCronjob w cronjob) = [] \/
      exists err, snd (checkCronjob w cronjob) = [LogError err]
  end.
Proof.
  split.
  - destruct (isDeploymentActionNeeded_log w (Annotations deployment) (Replicas deployment))
      as [(Hb & Hl & Hgl & Hne) | (Hb & Hl)]; cbv zeta in *.
    + pose proof (getDeploymentActionNeeded_range w (Annotations deployment)
                    (Replicas deployment)) as Hr. cbv zeta in Hr.
      unfold checkDeployment, bind, ret, Log, updateDeployment.
      rewrite Hb, Hl, Hgl. cbn [fst snd app].
      destruct Hr as [E | [E | E]]; [| | contradiction].
      * destruct (getDeploymentActionNeeded_Upscale _ _ _ E) as (o & HP & _).
        rewrite E, HP. cbn.
        exists "upscale". split; [auto |].
        destruct (UpdateDeployment w _); reflexivity.
      * destruct (getDeploymentActionNeeded_Downscale _ _ _ E) as (d & HP & _).
        rewrite E, HP. cbn.
        exists "downscale". split; [auto |].
        destruct (UpdateDeployment w _); reflexivity.
    + rewrite (checkDeployment_not_needed _ _ Hb). cbn. exact Hl.
  - destruct (isCronjobActionNeeded_log w (JobAnnotations cronjob) (SuspendFlag cronjob))
      as [(Hb & Hl & Hgl & Hne) | (Hb & Hl)]; cbv zeta in *.
    + pose proof (getCronjobActionNeeded_range w (JobAnnotations cronjob)
                    (SuspendFlag cronjob)) as Hr. cbv zeta in Hr.
      unfold checkCronjob, bind, ret, Log, updateCronJob.
      rewrite Hb, Hl, Hgl. cbn [fst snd app].
      destruct Hr as [E | [E | E]]; [| | contradiction]; rewrite E; cbn.
      * exists "suspend". split; [auto |].
        destruct (UpdateCronJob w _); reflexivity.
      * exists "resume". split; [auto |].
        destruct (UpdateCronJob w _); reflexivity.
    + rewrite (checkCronjob_not_needed _ _ Hb). cbn. exact Hl.
Qed.

(* ===================================================================== *)
(** * Formatting and parsing the annotation time *)
(* ===================================================================== *)

Lemma d02_shape h :
  0 <= h < 60 ->
  exists a b, GoFmt.d02 h = String a (String b "") /\
    Byte.is_digit a = true /\ Byte.is_digit b = true /\
    Byte.digit_val a * 10 + Byte.digit_val b = h.
Proof.
  intros Hh.
  assert (Hall : forallb d02Check (seq 0 60) = true) by (vm_compute; reflexivity).
  rewrite forallb_forall in Hall.
  specialize (Hall (Z.to_nat h) ltac:(apply in_seq; lia)).
  unfold d02Check in Hall. rewrite Z2Nat.id in Hall by lia.
  destruct (GoFmt.d02 h) as [| a [| b [| ? ?]]]; try discriminate.
  apply andb_true_iff in Hall. destruct Hall as [Hall Hv].
  apply andb_true_iff in Hall. destruct Hall as [Ha Hb].
  exists a, b. rewrite Z.eqb_eq in Hv. auto.
Qed.

Lemma d_plus_prec2_shape q :
  - 24 <= q <= 24 ->
  exists a b,
    GoFmt.d_plus_prec2 q = String (if q <? 0 then "-"%char else "+"%char) (String a (String b "")) /\
    Byte.is_digit a = true /\ Byte.is_digit b = true /\
    Byte.digit_val a * 10 + Byte.digit_val b = Z.abs q.
Proof.
  intros Hq.
  assert (Hall : forallb plusPrec2Check (seq 0 49) = true) by (vm_compute; reflexivity).
  rewrite forallb_forall in Hall.
  specialize (Hall (Z.to_nat (q + 24)) ltac:(apply in_seq; lia)).
  unfold plusPrec2Check in Hall. rewrite Z2Nat.id in Hall by lia.
  replace (q + 24 - 24) with q in Hall by lia. cbv zeta in Hall.
  destruct (GoFmt.d_plus_prec2 q) as [| sign [| a [| b [| ? ?]]]]; try discriminate.
  apply andb_true_iff in Hall. destruct Hall as [Hall Hv].
  apply andb_true_iff in Hall. destruct Hall as [Hall Hb].
  apply andb_true_iff in Hall. destruct Hall as [Hs Ha].
  unfold Byte.eqb in Hs. apply Ascii.eqb_eq in Hs. subst sign.
  exists a, b. rewrite Z.eqb_eq in Hv. auto.
Qed.

Lemma d_prec2_long r :
  100 <= r < 3600 ->
  exists a b c rest,
    GoFmt.d_prec2 r = String a (String b (String c rest)) /\ Byte.is_digit c = true.
Proof.
  intros Hr.
  assert (Hall : forallb prec2LongCheck (seq 0 3500) = true) by (vm_compute; reflexivity).
  rewrite forallb_forall in Hall.
  specialize (Hall (Z.to_nat (r - 100)) ltac:(apply in_seq; lia)).
  unfold prec2LongCheck in Hall. rewrite Z2Nat.id in Hall by lia.
  replace (r - 100 + 100) with r in Hall by lia.
  destruct (GoFmt.d_prec2 r) as [| a [| b [| c rest]]]; try discriminate.
  eauto 10.
Qed.

Lemma d_prec2_negative r :
  r < 0 -> exists rest, GoFmt.d_prec2 r = String "-" rest.
Proof.
  intros Hr. unfold GoFmt.d_prec2.
  destruct (Z.ltb_spec r 0); [| lia]. eexists. reflexivity.
Qed.

Lemma is_digit_not_space c : Byte.is_digit c = true -> Byte.eqb c " " = false.
Proof.
  intros H. unfold Byte.eqb.
  destruct (Ascii.eqb_spec c " "%char) as [-> |]; [discriminate H | reflexivity].
Qed.

Lemma getnum_two a b rest fixed :
  Byte.is_digit a = true -> Byte.is_digit b = true ->
  GoTime.getnum (String a (String b rest)) fixed
    = Some (Byte.digit_val a * 10 + Byte.digit_val b, rest).
Proof. intros Ha Hb. unfold GoTime.getnum. rewrite Ha, Hb. reflexivity. Qed.

(** The clock fields of a well-formed value, up to the zone offset. *)
Lemma parseClock_front a b c d tail :
  Byte.is_digit a = true -> Byte.is_digit b = true ->
  Byte.is_digit c = true -> Byte.is_digit d = true ->
  Byte.digit_val a * 10 + Byte.digit_val b < 24 ->
  Byte.digit_val c * 10 + Byte.digit_val d < 60 ->
  GoTime.parseClock (String " " (String a (String b (String ":" (String c (String d tail)))))) =
  match GoTime.skipSpace tail with
  | None => None
  | Some value =>
      match GoTime.parseNumTZ value with
      | None => None
      | Some (zoneOffset, value) =>
          match GoTime.skipSpace value with
          | None => None
          | Some value =>
              match GoTime.parseTZ value with
              | Some (z, EmptyString) =>
                  Some (Byte.digit_val a * 10 + Byte.digit_val b,
                        Byte.digit_val c * 10 + Byte.digit_val d, zoneOffset, z)
              | _ => None
              end
          end
      end
  end.
Proof.
  intros Ha Hb Hc Hd Hh Hm. unfold GoTime.parseClock.
  assert (Hs : GoTime.skipSpace (String " " (String a (String b
                 (String ":" (String c (String d tail))))))
               = Some (String a (String b (String ":" (String c (String d tail)))))).
  { unfold GoTime.skipSpace. change (Byte.eqb " " " ") with true.
    cbn [GoTime.cutspace]. change (Byte.eqb " " " ") with true.
    rewrite (is_digit_not_space a Ha). reflexivity. }
  rewrite Hs. cbn [mbind option_bind].
  rewrite (getnum_two a b _ false Ha Hb). cbn [mbind option_bind].
  destruct (Z.leb_spec 24 (Byte.digit_val a * 10 + Byte.digit_val b)); [lia |].
  change (GoTime.skipByte ":" (String ":" (String c (String d tail))))
    with (Some (String c (String d tail))).
  cbn [mbind option_bind].
  rewrite (getnum_two c d _ true Hc Hd). cbn [mbind option_bind].
  destruct (Z.leb_spec 60 (Byte.digit_val c * 10 + Byte.digit_val d)); [lia |].
  destruct (GoTime.skipSpace tail) as [value |]; [| reflexivity]. cbn [mbind option_bind].
  destruct (GoTime.parseNumTZ value) as [[zoneOffset value'] |]; [| reflexivity].
  cbn [mbind option_bind].
  destruct (GoTime.skipSpace value') as [value'' |]; [| reflexivity]. cbn [mbind option_bind].
  destruct (GoTime.parseTZ value'') as [[z [| ? ?]] |]; reflexivity.
Qed.

Lemma Parse_refDate rest :
  GoTime.Parse (GoTime.refDate +:+ rest) =
  match GoTime.parseClock rest with
  | Some (hour, min, zoneOffset, z) =>
      match z with
      | None => Ok (GoTime.refTime hour min)
      | Some zoneName =>
          Ok {| GoTime.unixSec := GoTime.unixSec (GoTime.refTime hour min) - zoneOffset;
                GoTime.loc := if (zoneOffset =? 0) && String.eqb zoneName "UTC"
                              then GoTime.UTC
                              else GoTime.FixedZone zoneName zoneOffset |}
      end
  | None => Err (ParseError GoTime.layout (GoTime.refDate +:+ rest))
  end.
Proof.
  unfold GoTime.Parse.
  rewrite (proj2 (HasPrefix_spec GoTime.refDate (GoTime.refDate +:+ rest)))
    by (exists rest; reflexivity).
  change (GoStrings.drop (String.length GoTime.refDate) (GoTime.refDate +:+ rest)) with rest.
  destruct (GoTime.parseClock rest) as [[[[? ?] ?] [? |]] |]; reflexivity.
Qed.

Lemma parsed_clock h m zoneOffset zoneName :
  0 <= h < 24 -> 0 <= m < 60 ->
  getRidOfDate
    {| GoTime.unixSec := GoTime.unixSec (GoTime.refTime h m) - zoneOffset;
       GoTime.loc := if (zoneOffset =? 0) && String.eqb zoneName "UTC" then GoTime.UTC
                     else GoTime.FixedZone zoneName zoneOffset |}
  = Ok (GoTime.refTime h m).
Proof.
  intros Hh Hm. rewrite getRidOfDate_total.
  match goal with
  | |- context [GoTime.Hour ?r] =>
      assert (Habs : GoTime.abs r = GoTime.abs (GoTime.refTime h m))
  end.
  { unfold GoTime.abs, GoTime.Zone. cbn [GoTime.unixSec GoTime.loc].
    destruct (Z.eqb_spec zoneOffset 0) as [-> | NE];
      [destruct (String.eqb zoneName "UTC") |]; cbn; lia. }
  pose proof (refTime_Hour h m Hh Hm) as HH. pose proof (refTime_Minute h m Hh Hm) as HM.
  unfold GoTime.Hour, GoTime.Minute in *. rewrite Habs, HH, HM. reflexivity.
Qed.

Lemma parseNumTZ_rest value zoneOffset rest :
  GoTime.parseNumTZ value = Some (zoneOffset, rest) -> rest = GoStrings.drop 5 value.
Proof.
  unfold GoTime.parseNumTZ.
  repeat match goal with
  | |- context [if ?b then _ else _] => destruct b
  | |- context [match ?o with Some _ => _ | None => _ end] => destruct o as [[? ?] |]
  end; try discriminate; intros [= _ <-]; reflexivity.
Qed.

Lemma parseNumTZ_whole (neg : bool) a b rest :
  Byte.is_digit a = true -> Byte.is_digit b = true ->
  Byte.digit_val a * 10 + Byte.digit_val b <= 24 ->
  exists zoneOffset,
    GoTime.parseNumTZ
      (String (if neg then "-"%char else "+"%char)
         (String a (String b (String "0" (String "0" rest)))))
    = Some (zoneOffset, rest).
Proof.
  intros Ha Hb Hq. unfold GoTime.parseNumTZ.
  cbn [String.length GoStrings.take GoStrings.drop Nat.ltb Nat.leb].
  rewrite (getnum_two a b _ true Ha Hb).
  change (GoTime.getnum "00" true) with (Some (0, EmptyString)).
  destruct (Z.ltb_spec 24 (Byte.digit_val a * 10 + Byte.digit_val b)); [lia |].
  cbn [orb]. change (60 <? 0) with false. cbv iota.
  destruct neg; cbn; eauto.
Qed.

Lemma parseTZ_head abbr x :
  GoTime.parseTZ abbr = Some x ->
  exists c s, abbr = String c s /\ Byte.eqb c " " = false.
Proof.
  destruct abbr as [| c s]; [discriminate |].
  intros H. exists c, s. split; [reflexivity |].
  unfold Byte.eqb. destruct (Ascii.eqb_spec c " "%char) as [-> | NE]; [| reflexivity].
  exfalso. revert H. unfold GoTime.parseTZ, GoTime.parseTimeZone.
  cbn [GoStrings.HasPrefix GoStrings.take GoStrings.drop].
  change (Byte.eqb " " "U") with false. cbn [andb].
  destruct (_ <? _)%nat; [discriminate |].
  cbn. discriminate.
Qed.

(** The annotation text a well-formed [HH:MM] gives, spelled out. *)
Lemma ConvertAnnotationTime_text w tz loc abbr zoneOffset t :
  LoadLocation w tz = Ok loc ->
  GoTime.Zone (GoTime.In (timeNow w) loc) = (abbr, zoneOffset) ->
  ConvertAnnotationTime w t tz =
  GoTime.Parse (GoTime.refDate +:+ " " +:+ t +:+ " " +:+
                (GoFmt.d_plus_prec2 (Z.quot zoneOffset 3600) +:+
                 GoFmt.d_prec2 (Z.rem zoneOffset 3600)) +:+ " " +:+ abbr).
Proof.
  intros Hloc Hzone. unfold ConvertAnnotationTime. rewrite Hloc. cbv zeta.
  rewrite Hzone.
  match goal with |- context [GoTime.Parse ?x] => set (text := x) end.
  match goal with |- _ = GoTime.Parse ?y => change y with text end.
  destruct (GoTime.Parse text); reflexivity.
Qed.

(** X12. In a zone a whole number of hours off UTC whose abbreviation
    [time.Parse] accepts, a two-digit [HH:MM] annotation converts without
    error and normalises to hour [HH] and minute [MM] of the reference
    day: the offset of the zone does not move it. *)
Theorem ConvertAnnotationTime_wellformed w tz loc abbr q z h m :
  0 <= h < 24 -> 0 <= m < 60 ->
  LoadLocation w tz = Ok loc ->
  GoTime.Zone (GoTime.In (timeNow w) loc) = (abbr, q * 3600) ->
  - 24 <= q <= 24 ->
  GoTime.parseTZ abbr = Some (z, "") ->
  exists r,
    ConvertAnnotationTime w (GoFmt.d02 h +:+ ":" +:+ GoFmt.d02 m) tz = Ok r /\
    getRidOfDate r = Ok (GoTime.refTime h m).
Proof.
  intros Hh Hm Hloc Hzone Hq Htz.
  rewrite (ConvertAnnotationTime_text _ _ _ _ _ _ Hloc Hzone), Parse_refDate.
  rewrite Z.quot_mul, Z.rem_mul by lia.
  destruct (d02_shape h ltac:(lia)) as (a & b & -> & Ha & Hb & Hab).
  destruct (d02_shape m ltac:(lia)) as (c & d & -> & Hc & Hd & Hcd).
  destruct (d_plus_prec2_shape q Hq) as (x & y & -> & Hx & Hy & Hxy).
  destruct (parseTZ_head _ _ Htz) as (c0 & s0 & -> & Hc0).
  set (sign := if q <? 0 then "-"%char else "+"%char).
  assert (Hsign : sign = (if q <? 0 then "-"%char else "+"%char)) by reflexivity.
  change (GoTime.parseClock _) with
    (GoTime.parseClock (String " " (String a (String b (String ":" (String c (String d
       (String " " (String sign (String x (String y (String "0" (String "0"
          (String " " (String c0 s0))))))))))))))).
  rewrite parseClock_front by (assumption || lia).
  assert (Hskip1 : forall rest, GoTime.skipSpace (String " " (String sign rest))
                                = Some (String sign rest)).
  { intros rest. rewrite Hsign. destruct (q <? 0); reflexivity. }
  rewrite Hskip1.
  destruct (parseNumTZ_whole (q <? 0) x y (String " " (String c0 s0)) Hx Hy ltac:(lia))
    as (zoneOffset & HN).
  fold sign in HN. rewrite HN.
  assert (Hskip2 : GoTime.skipSpace (String " " (String c0 s0)) = Some (String c0 s0)).
  { unfold GoTime.skipSpace. change (Byte.eqb " " " ") with true.
    cbn [GoTime.cutspace]. change (Byte.eqb " " " ") with true. rewrite Hc0. reflexivity. }
  rewrite Hskip2, Htz, Hab, Hcd.
  destruct z as [zoneName |]; eexists; (split; [reflexivity |]).
  - apply parsed_clock; assumption.
  - rewrite getRidOfDate_total, refTime_Hour, refTime_Minute by assumption. reflexivity.
Qed.

Lemma ConvertAnnotationTime_wellformed_witness :
  LoadLocation (Sample.wednesday 20 0 0) "Europe/Prague" = Ok (GoTime.FixedZone "CET" 3600) /\
  GoTime.parseTZ "CET" = Some (Some "CET", "") /\
  exists r, ConvertAnnotationTime (Sample.wednesday 20 0 0) "08:00" "Europe/Prague" = Ok r /\
            getRidOfDate r = Ok (GoTime.refTime 8 0).
Proof.
  split; [reflexivity |]. split; [vm_compute; reflexivity |].
  apply (ConvertAnnotationTime_wellformed (Sample.wednesday 20 0 0) "Europe/Prague"
           (GoTime.FixedZone "CET" 3600) "CET" 1 (Some "CET") 8 0);
    try lia; try reflexivity.
Defined.

(** With an offset that is not a whole number of hours the value handed to
    [time.Parse] does not fit the layout. *)
Lemma ConvertAnnotationTime_fractional w tz loc abbr zoneOffset h m :
  0 <= h < 24 -> 0 <= m < 60 ->
  LoadLocation w tz = Ok loc ->
  GoTime.Zone (GoTime.In (timeNow w) loc) = (abbr, zoneOffset) ->
  - 24 <= Z.quot zoneOffset 3600 <= 24 ->
  Z.rem zoneOffset 3600 < 0 \/ 100 <= Z.rem zoneOffset 3600 ->
  exists value,
    ConvertAnnotationTime w (GoFmt.d02 h +:+ ":" +:+ GoFmt.d02 m) tz
      = Err (ParseError GoTime.layout value).
Proof.
  intros Hh Hm Hloc Hzone Hq Hrem.
  rewrite (ConvertAnnotationTime_text _ _ _ _ _ _ Hloc Hzone), Parse_refDate.
  match goal with
  | |- context [GoTime.parseClock ?v] =>
      assert (Hnone : GoTime.parseClock v = None); [| rewrite Hnone; eauto]
  end.
  destruct (d02_shape h ltac:(lia)) as (a & b & -> & Ha & Hb & Hab).
  destruct (d02_shape m ltac:(lia)) as (c & d & -> & Hc & Hd & Hcd).
  destruct (d_plus_prec2_shape _ Hq) as (x & y & -> & Hx & Hy & Hxy).
  set (sign := if Z.quot zoneOffset 3600 <? 0 then "-"%char else "+"%char).
  assert (Hskip1 : forall rest, GoTime.skipSpace (String " " (String sign rest))
                                = Some (String sign rest)).
  { intros rest. unfold sign. destruct (_ <? 0); reflexivity. }
  destruct Hrem as [Hneg | Hlong].
  - destruct (d_prec2_negative _ Hneg) as (rest & ->).
    change (GoTime.parseClock _) with
      (GoTime.parseClock (String " " (String a (String b (String ":" (String c (String d
         (String " " (String sign (String x (String y (String "-"
            (rest +:+ " " +:+ abbr))))))))))))).
    rewrite parseClock_front by (assumption || lia). rewrite Hskip1.
    unfold GoTime.parseNumTZ.
    destruct (_ <? 5)%nat; [reflexivity |].
    cbn [GoStrings.take GoStrings.drop].
    rewrite (getnum_two x y _ true Hx Hy).
    destruct (rest +:+ " " +:+ abbr); reflexivity.
  - assert (Hr : 100 <= Z.rem zoneOffset 3600 < 3600).
    { pose proof (Z.rem_bound_abs zoneOffset 3600 ltac:(lia)). lia. }
    destruct (d_prec2_long _ Hr) as (d1 & d2 & d3 & rest & -> & Hd3).
    change (GoTime.parseClock _) with
      (GoTime.parseClock (String " " (String a (String b (String ":" (String c (String d
         (String " " (String sign (String x (String y (String d1 (String d2 (String d3
            (rest +:+ " " +:+ abbr))))))))))))))).
    rewrite parseClock_front by (assumption || lia). rewrite Hskip1.
    destruct (GoTime.parseNumTZ _) as [[off value] |] eqn:HN; [| reflexivity].
    apply parseNumTZ_rest in HN. cbn [GoStrings.drop] in HN. subst value.
    unfold GoTime.skipSpace. rewrite (is_digit_not_space d3 Hd3). reflexivity.
Qed.

(** X13. In a zone whose offset is not a whole number of hours (the
    remainder of the offset by 3600 is negative or at least 100, as for
    +05:30) the offset is printed as hours followed by the remaining
    seconds and the value no longer fits the layout: with a two-digit
    [HH:MM] start time both deciders return NoAction and log the parse
    error, for every state, and the loops write nothing. *)
Theorem fractional_zone_never_acts w annotations loc abbr zoneOffset hs ms stopTime :
  0 <= hs < 24 -> 0 <= ms < 60 ->
  annotations !! annotationStartTime = Some (GoFmt.d02 hs +:+ ":" +:+ GoFmt.d02 ms) ->
  annotations !! annotationStopTime = Some stopTime ->
  LoadLocation w (index annotations annotationTimeZone) = Ok loc ->
  GoTime.Zone (GoTime.In (timeNow w) loc) = (abbr, zoneOffset) ->
  - 24 <= Z.quot zoneOffset 3600 <= 24 ->
  Z.rem zoneOffset 3600 < 0 \/ 100 <= Z.rem zoneOffset 3600 ->
  exists value,
    (forall replicas,
       getDeploymentActionNeeded w annotations replicas
         = (NoAction, [LogError (ParseError GoTime.layout value)])) /\
    (forall suspend,
       getCronjobActionNeeded w annotations suspend
         = (NoAction, [LogError (ParseError GoTime.layout value)])) /\
    (forall deployment, Annotations deployment = annotations ->
       fst (checkDeployment w deployment) = None) /\
    (forall cronjob, JobAnnotations cronjob = annotations ->
       fst (checkCronjob w cronjob) = None).
Proof.
  intros Hh Hm Hstart Hstop Hloc Hzone Hq Hrem.
  destruct (ConvertAnnotationTime_fractional w _ loc abbr zoneOffset hs ms
              Hh Hm Hloc Hzone Hq Hrem) as (value & Hconv).
  exists value.
  assert (Hw : window w annotations = WindowError (ParseError GoTime.layout value)).
  { unfold window. rewrite ConvertTimeNowToLocal_eq, Hloc. cbv beta iota zeta.
    rewrite Hstart, Hstop, Hconv. reflexivity. }
  assert (Hdep : forall replicas, getDeploymentActionNeeded w annotations replicas
                   = (NoAction, [LogError (ParseError GoTime.layout value)])).
  { intros replicas. rewrite getDeploymentActionNeeded_window, Hw. reflexivity. }
  assert (Hjob : forall suspend, getCronjobActionNeeded w annotations suspend
                   = (NoAction, [LogError (ParseError GoTime.layout value)])).
  { intros suspend. rewrite getCronjobActionNeeded_window, Hw. reflexivity. }
  split; [exact Hdep |]. split; [exact Hjob |]. split.
  - intros deployment <-. apply checkDeployment_NoAction. rewrite Hdep. reflexivity.
  - intros cronjob <-. apply checkCronjob_NoAction. rewrite Hjob. reflexivity.
Qed.

Lemma fractional_zone_witness :
  LoadLocation (India.wednesday 20 0) (index India.nginx annotationTimeZone)
    = Ok (GoTime.FixedZone "IST" 19800) /\
  Z.rem 19800 3600 = 1800 /\
  fst (checkDeployment (India.wednesday 20 0) (Sample.deployment India.nginx 2)) = None.
Proof.
  assert (Hloc : LoadLocation (India.wednesday 20 0) (index India.nginx annotationTimeZone)
                 = Ok (GoTime.FixedZone "IST" 19800)) by (vm_compute; reflexivity).
  assert (Hstart : India.nginx !! annotationStartTime
                   = Some (GoFmt.d02 8 +:+ ":" +:+ GoFmt.d02 0)) by (vm_compute; reflexivity).
  assert (Hstop : India.nginx !! annotationStopTime = Some "16:00")
    by (vm_compute; reflexivity).
  assert (Hq : - 24 <= Z.quot 19800 3600 <= 24) by (vm_compute; split; discriminate).
  assert (Hrem : Z.rem 19800 3600 < 0 \/ 100 <= Z.rem 19800 3600)
    by (right; vm_compute; discriminate).
  split; [exact Hloc |]. split; [reflexivity |].
  pose proof (fractional_zone_never_acts (India.wednesday 20 0) India.nginx
                (GoTime.FixedZone "IST" 19800) "IST" 19800 8 0 "16:00"
                ltac:(lia) ltac:(lia) Hstart Hstop Hloc eq_refl Hq Hrem) as (value & _ & _ & Hdep & _).
  exact (Hdep (Sample.deployment India.nginx 2) eq_refl).
Defined.

(* ===================================================================== *)
(** * A second cycle *)
(* ===================================================================== *)

Lemma reconciled_settled w deployment :
  fst (checkDeployment w (reconciled w deployment)) = None.
Proof.
  unfold reconciled.
  destruct (fst (checkDeployment w deployment)) as [d' |] eqn:E; cbn; [| exact E].
  apply checkDeployment_NoAction. rewrite (written_deployment_settled _ _ _ E). reflexivity.
Qed.

Lemma reconciledJob_settled w cronjob :
  fst (checkCronjob w (reconciledJob w cronjob)) = None.
Proof.
  unfold reconciledJob.
  destruct (fst (checkCronjob w cronjob)) as [c' |] eqn:E; cbn; [| exact E].
  apply checkCronjob_NoAction. rewrite (written_cronjob_settled _ _ _ E). reflexivity.
Qed.

Lemma checkCronjobs_writes w items :
  fst (checkCronjobs w items) = omap (fun c => fst (checkCronjob w c)) items.
Proof.
  induction items as [| cronjob rest IH]; [reflexivity |].
  cbn [checkCronjobs omap list_omap]. unfold bind, ret. cbn [fst snd].
  rewrite IH. destruct (fst (checkCronjob w cronjob)); reflexivity.
Qed.

(** X14. Once the writes of a cycle are in, a cycle at the same instant
    writes nothing, for deployments and for cronjobs. *)
Theorem second_cycle_writes_nothing w deployments cronjobs :
  fst (checkDeployments w (map (reconciled w) deployments)) = [] /\
  fst (checkCronjobs w (map (reconciledJob w) cronjobs)) = [].
Proof.
  rewrite checkDeployments_writes, checkCronjobs_writes. split.
  - induction deployments as [| d rest IH]; [reflexivity |].
    cbn [map omap list_omap]. rewrite reconciled_settled. exact IH.
  - induction cronjobs as [| c rest IH]; [reflexivity |].
    cbn [map omap list_omap]. rewrite reconciledJob_settled. exact IH.
Qed.

(* ===================================================================== *)
(** * A scheduled pass acts *)
(* ===================================================================== *)


